(** * dnsfilter.web: the whitelist web service, embedded and verified

    Shallow embedding of [src/dnsfilter/web.py] (Python 2, Twisted Web).

    - Python 2 [str] values (request paths, argument values, literals,
      whitelist entries) are byte strings: Rocq [string].
    - [request.args] is a [dict] from names to lists of values: a [gmap].
    - A render method mutates the request (response code, response headers),
      talks to the whitelist store and may raise: a state-and-exception monad
      [M] over the record [env].
    - The [whitelists] module is not part of the sources at hand; the handlers
      are written against its interface ([Whitelist]), every call they make is
      logged in [calls]. *)

From stdpp Require Import base option list strings gmap.
From Stdlib Require Import ZArith Ascii String.

Local Open Scope string_scope.
Local Open Scope list_scope.
Local Open Scope Z_scope.

(** ** Python 2 byte strings *)

Module Py.

Definition LF : ascii := "010"%char.

(** [s + "\n"] *)
Definition line (s : string) : string := s +:+ String LF "".

(** [s.startswith(p)] *)
Fixpoint startswith (s p : string) {struct p} : bool :=
  match p, s with
  | EmptyString, _ => true
  | String c p', String d s' => if Ascii.eqb c d then startswith s' p' else false
  | String _ _, EmptyString => false
  end.

(** [s[1:]] *)
Definition tail (s : string) : string :=
  match s with
  | EmptyString => EmptyString
  | String _ s' => s'
  end.

(** [s.replace(old, "")] for a non-empty [old]: scans left to right and drops
    every non-overlapping occurrence.  [skip] counts the characters of the
    occurrence found last that are still to be dropped. *)
Fixpoint remove_from (skip : nat) (old s : string) : string :=
  match s with
  | EmptyString => EmptyString
  | String c s' =>
      match skip with
      | S k => remove_from k old s'
      | O =>
          if startswith s old
          then remove_from (Nat.pred (String.length old)) old s'
          else String c (remove_from O old s')
      end
  end.

Definition remove (old s : string) : string := remove_from O old s.

(** [sub in s] *)
Fixpoint contains_str (s sub : string) : bool :=
  startswith s sub ||
  match s with
  | EmptyString => false
  | String _ s' => contains_str s' sub
  end.

(** [s.split(sep)] for a single character [sep]: the pieces, with the piece
    being read kept apart. *)
Fixpoint split_from (sep : ascii) (cur s : string) : list string :=
  match s with
  | EmptyString => [cur]
  | String c s' =>
      if Ascii.eqb c sep
      then cur :: split_from sep "" s'
      else split_from sep (cur +:+ String c "") s'
  end.

Definition split (sep : ascii) (s : string) : list string := split_from sep "" s.

(** [sep.join(l)] *)
Definition join (sep : string) (l : list string) : string := String.concat sep l.

Definition hexval (c : ascii) : option N :=
  let n := N_of_ascii c in
  if ((48 <=? n) && (n <=? 57))%N then Some (n - 48)%N
  else if ((65 <=? n) && (n <=? 70))%N then Some (n - 55)%N
  else if ((97 <=? n) && (n <=? 102))%N then Some (n - 87)%N
  else None.

(** [urllib.unquote]: [%XX] with two hexadecimal digits becomes the byte, any
    other [%] stays. *)
Fixpoint unquote_from (skip : nat) (s : string) : string :=
  match s with
  | EmptyString => EmptyString
  | String c s' =>
      match skip with
      | S k => unquote_from k s'
      | O =>
          match s' with
          | String h (String l _) =>
              if Ascii.eqb c "%"
              then match hexval h, hexval l with
                   | Some a, Some b =>
                       String (ascii_of_N (16 * a + b)) (unquote_from 2 s')
                   | _, _ => String c (unquote_from O s')
                   end
              else String c (unquote_from O s')
          | _ => String c (unquote_from O s')
          end
      end
  end.

Definition unquote (s : string) : string := unquote_from O s.

End Py.

(** ** Values returned by the render methods

    A render method returns either a [str] or the list of domains read from
    the store. *)

Inductive pyvalue :=
| PStr (s : string)
| PList (l : list string).

(** ** Exceptions raised inside a render *)

Inductive exn :=
| UnsupportedMethod     (* twisted.web.error.UnsupportedMethod *)
| AttributeError
| IndexError
| UnicodeDecodeError.

Inductive result (A : Type) :=
| Ok (a : A)
| Raise (e : exn).

Arguments Ok {A} a.
Arguments Raise {A} e.

(** ** [json.dumps] of Python 2.7 on [str] and lists of [str]

    With the default [ensure_ascii=True] and [encoding='utf-8'] a [str] that
    holds a byte above 0x7f is first decoded as UTF-8 (strict), which raises
    [UnicodeDecodeError] on an ill-formed sequence; every code point outside
    [' '..'~'], the quote and the backslash are then escaped. *)

Module json.

Definition DQ : ascii := "034"%char.
Definition BS : ascii := "092"%char.

Definition is_cont (b : N) : bool := ((128 <=? b) && (b <? 192))%N.

(** The strict UTF-8 decoder of CPython 2.7: lead bytes 0xC2..0xF4, no
    overlong forms, nothing above U+10FFFF; surrogates are let through. *)
Fixpoint utf8_decode_from (skip : nat) (s : string) : option (list N) :=
  match s with
  | EmptyString => Some []
  | String c s' =>
      match skip with
      | S k => utf8_decode_from k s'
      | O =>
          let b0 := N_of_ascii c in
          if (b0 <? 128)%N then cons b0 <$> utf8_decode_from O s'
          else if (b0 <? 194)%N then None
          else if (b0 <? 224)%N then
            match s' with
            | String c1 _ =>
                let b1 := N_of_ascii c1 in
                if is_cont b1
                then cons ((b0 - 192) * 64 + (b1 - 128))%N <$> utf8_decode_from 1 s'
                else None
            | _ => None
            end
          else if (b0 <? 240)%N then
            match s' with
            | String c1 (String c2 _) =>
                let b1 := N_of_ascii c1 in
                let b2 := N_of_ascii c2 in
                if is_cont b1 && is_cont b2 && negb ((b0 =? 224) && (b1 <? 160))%N
                then cons ((b0 - 224) * 4096 + (b1 - 128) * 64 + (b2 - 128))%N
                       <$> utf8_decode_from 2 s'
                else None
            | _ => None
            end
          else if (b0 <? 245)%N then
            match s' with
            | String c1 (String c2 (String c3 _)) =>
                let b1 := N_of_ascii c1 in
                let b2 := N_of_ascii c2 in
                let b3 := N_of_ascii c3 in
                if is_cont b1 && is_cont b2 && is_cont b3
                   && negb ((b0 =? 240) && (b1 <? 144))%N
                   && negb ((b0 =? 244) && (143 <? b1))%N
                then cons ((b0 - 240) * 262144 + (b1 - 128) * 4096
                           + (b2 - 128) * 64 + (b3 - 128))%N
                       <$> utf8_decode_from 3 s'
                else None
            | _ => None
            end
          else None
      end
  end.

Definition utf8_decode (s : string) : option (list N) := utf8_decode_from O s.

Definition hex_digit (n : N) : ascii :=
  if (n <? 10)%N then ascii_of_N (48 + n) else ascii_of_N (87 + n).

(** ['\\u{0:04x}'.format(n)] *)
Definition u_escape (n : N) : string :=
  String BS (String "u"
    (String (hex_digit (n / 4096 mod 16))
    (String (hex_digit (n / 256 mod 16))
    (String (hex_digit (n / 16 mod 16))
    (String (hex_digit (n mod 16)) ""))))).

(** The replacement of one code point: [ESCAPE_DCT], then [\uXXXX], then a
    surrogate pair. *)
Definition escape (n : N) : string :=
  if (n =? 34)%N then String BS (String DQ "")
  else if (n =? 92)%N then String BS (String BS "")
  else if (n =? 8)%N then String BS "b"
  else if (n =? 12)%N then String BS "f"
  else if (n =? 10)%N then String BS "n"
  else if (n =? 13)%N then String BS "r"
  else if (n =? 9)%N then String BS "t"
  else if ((32 <=? n) && (n <=? 126))%N then String (ascii_of_N n) ""
  else if (n <? 65536)%N then u_escape n
  else
    let m := (n - 65536)%N in
    u_escape (55296 + (m / 1024) mod 1024) +:+ u_escape (56320 + m mod 1024).

(** [encode_basestring_ascii] *)
Definition encode_basestring_ascii (s : string) : result string :=
  match utf8_decode s with
  | None => Raise UnicodeDecodeError
  | Some cps => Ok (String DQ (String.concat "" (escape <$> cps) +:+ String DQ ""))
  end.

(** The items of a list, one after the other; the first one that cannot be
    decoded raises. *)
Fixpoint encode_each (l : list string) : result (list string) :=
  match l with
  | [] => Ok []
  | s :: l' =>
      match encode_basestring_ascii s with
      | Raise e => Raise e
      | Ok js =>
          match encode_each l' with
          | Raise e => Raise e
          | Ok rest => Ok (js :: rest)
          end
      end
  end.

(** [json.dumps(data)]: a list is written with the default item separator
    [", "]. *)
Definition dumps (data : pyvalue) : result string :=
  match data with
  | PStr s => encode_basestring_ascii s
  | PList l =>
      match encode_each l with
      | Raise e => Raise e
      | Ok items => Ok ("[" +:+ Py.join ", " items +:+ "]")
      end
  end.

(** A string between double quotes. *)
Definition quoted (s : string) : string := String DQ (s +:+ String DQ "").

(** *** Reading JSON back

    What [json.loads] makes of the texts above, for stating that a body is a
    JSON document equivalent to a given value: a string literal or an array of
    string literals, white space between the tokens, the escapes of JSON;
    a [\uXXXX] beyond ASCII is not read. *)

Inductive token :=
| TOpen
| TClose
| TComma
| TString (s : string).

Inductive mode :=
| Outside
| Inside (acc : string)
| Escaped (acc : string)
| Hex (acc : string) (n : N) (todo : nat).

Definition snoc (acc : string) (c : ascii) : string := acc +:+ String c "".

Definition is_space (c : ascii) : bool :=
  let n := N_of_ascii c in ((n =? 32) || (n =? 9) || (n =? 10) || (n =? 13))%N.

Definition unescape (c : ascii) : option ascii :=
  if Ascii.eqb c DQ then Some DQ
  else if Ascii.eqb c BS then Some BS
  else if Ascii.eqb c "/" then Some "/"%char
  else if Ascii.eqb c "b" then Some "008"%char
  else if Ascii.eqb c "f" then Some "012"%char
  else if Ascii.eqb c "n" then Some "010"%char
  else if Ascii.eqb c "r" then Some "013"%char
  else if Ascii.eqb c "t" then Some "009"%char
  else None.

Fixpoint lex (m : mode) (s : string) : option (list token) :=
  match s with
  | EmptyString => match m with Outside => Some [] | _ => None end
  | String c s' =>
      match m with
      | Outside =>
          if Ascii.eqb c "[" then cons TOpen <$> lex Outside s'
          else if Ascii.eqb c "]" then cons TClose <$> lex Outside s'
          else if Ascii.eqb c "," then cons TComma <$> lex Outside s'
          else if Ascii.eqb c DQ then lex (Inside "") s'
          else if is_space c then lex Outside s'
          else None
      | Inside acc =>
          if Ascii.eqb c DQ then cons (TString acc) <$> lex Outside s'
          else if Ascii.eqb c BS then lex (Escaped acc) s'
          else if (N_of_ascii c <? 32)%N then None
          else lex (Inside (snoc acc c)) s'
      | Escaped acc =>
          if Ascii.eqb c "u" then lex (Hex acc 0 4) s'
          else match unescape c with
               | Some d => lex (Inside (snoc acc d)) s'
               | None => None
               end
      | Hex acc n todo =>
          match Py.hexval c, todo with
          | Some d, 1%nat =>
              let n' := (16 * n + d)%N in
              if (n' <? 128)%N then lex (Inside (snoc acc (ascii_of_N n'))) s' else None
          | Some d, S k => lex (Hex acc (16 * n + d)%N k) s'
          | _, _ => None
          end
      end
  end.

Fixpoint parse_items (ts : list token) : option (list string) :=
  match ts with
  | [TString s; TClose] => Some [s]
  | TString s :: TComma :: ts' => cons s <$> parse_items ts'
  | _ => None
  end.

Definition parse (ts : list token) : option pyvalue :=
  match ts with
  | [TString s] => Some (PStr s)
  | [TOpen; TClose] => Some (PList [])
  | TOpen :: ts' => PList <$> parse_items ts'
  | _ => None
  end.

Definition loads (s : string) : option pyvalue := lex Outside s ≫= parse.

End json.

(** ** twisted.web.http: the status codes used *)

Module http.
Definition OK : Z := 200.
Definition BAD_REQUEST : Z := 400.
Definition NOT_FOUND : Z := 404.
Definition NOT_IMPLEMENTED : Z := 501.
End http.

(** ** The whitelist store, as the handlers use it

    [whitelists.load(url)] gives a handle [wl] on the store behind [url]; the
    handlers call [wl.contains(d)], [wl.add(d)], [wl.delete(d)] and
    [wl.get_all()].  The store is a value of a type [W] that these calls read
    or replace. *)

Module whitelists.

Class Whitelist (W : Type) := {
  contains : W → string → bool;
  add : W → string → W;
  delete : W → string → W;
  get_all : W → list string;
}.

End whitelists.

Import whitelists.

(** One entry of the log of what a request did with the [whitelists] module. *)
Inductive call :=
| Load (url : string)
| Contains (d : string)
| Add (d : string)
| Delete (d : string)
| GetAll.

(** ** Requests *)

(** What the handlers read of a [twisted.web.http.Request]. *)
Record Request := {
  method : string;
  path : string;
  args : gmap string (list string);
  getHeader : string → option string;
}.

(** [request.postpath] as [twisted.web.server.Request.process] sets it. *)
Definition postpath (request : Request) : list string :=
  Py.unquote <$> Py.split "/" (Py.tail (path request)).

(** ** The monad of a render *)

Section Web.

Context {W : Type} `{Whitelist W}.

(** [args.url], the storage URL the service is configured with. *)
Variable storage_url : string.

(** The page of [twisted.web.resource.NoResource]. *)
Variable no_resource_page : string.

(** The store, the log of the calls made to it, and what the request has been
    told about the response so far. *)
Record env := Env {
  store : W;
  calls : list call;
  code : Z;
  responseHeaders : gmap string string;
}.

Definition M (A : Type) : Type := env → result A * env.

Definition ret {A} (a : A) : M A := λ e, (Ok a, e).

Definition bind {A B} (m : M A) (k : A → M B) : M B :=
  λ e, match m e with
       | (Ok a, e') => k a e'
       | (Raise x, e') => (Raise x, e')
       end.

Definition raise {A} (x : exn) : M A := λ e, (Raise x, e).

Definition lift {A} (r : result A) : M A := λ e, (r, e).

Notation "'let*' x ':=' m 'in' k" := (bind m (λ x, k))
  (at level 10, x name, m at level 100, k at level 200, only parsing).
Notation "m '>>' k" := (bind m (λ _, k))
  (at level 100, k at level 200, right associativity, only parsing).

(** [request.setResponseCode(c)] *)
Definition setResponseCode (c : Z) : M unit :=
  λ e, (Ok (), Env (store e) (calls e) c (responseHeaders e)).

(** [request.setHeader(k, v)] *)
Definition setHeader (k v : string) : M unit :=
  λ e, (Ok (), Env (store e) (calls e) (code e) (<[k := v]> (responseHeaders e))).

Definition logged (c : call) (e : env) : env :=
  Env (store e) (calls e ++ [c]) (code e) (responseHeaders e).

(** [_get_whitelist(url)] *)
Definition _get_whitelist (url : string) : M unit :=
  λ e, (Ok (), logged (Load url) e).

(** [wl.contains(d)] *)
Definition wl_contains (d : string) : M bool :=
  λ e, (Ok (contains (store e) d), logged (Contains d) e).

(** [wl.add(d)] *)
Definition wl_add (d : string) : M unit :=
  λ e, (Ok (), logged (Add d) (Env (add (store e) d) (calls e) (code e) (responseHeaders e))).

(** [wl.delete(d)] *)
Definition wl_delete (d : string) : M unit :=
  λ e, (Ok (), logged (Delete d) (Env (delete (store e) d) (calls e) (code e) (responseHeaders e))).

(** [wl.get_all()] *)
Definition wl_get_all : M (list string) :=
  λ e, (Ok (get_all (store e)), logged GetAll e).

(** [values[0]] *)
Definition item0 (values : list string) : M string :=
  match values with
  | [] => raise IndexError
  | v :: _ => ret v
  end.

(** ** DNSFilterWebservice *)

Definition render_POST (request : Request) : M pyvalue :=
  if String.eqb (path request) "/domains" then
    match args request !! "domain" with
    | None =>
        setResponseCode http.BAD_REQUEST >>
        ret (PStr (Py.line "BAD REQUEST"))
    | Some values =>
        let* domain := item0 values in
        _get_whitelist storage_url >>
        let* present := wl_contains domain in
        (if negb present then wl_add domain else ret ()) >>
        setHeader "Location" ("/domains/" +:+ domain) >>
        ret (PStr (Py.line "CREATED"))
    end
  else
    setResponseCode http.NOT_FOUND >>
    ret (PStr (Py.line "NOT FOUND")).

(** The loop [for domain in ...: result.append(domain)]. *)
Definition collect (domains : list string) : list string :=
  foldl (λ acc domain, acc ++ [domain]) [] domains.

Definition render_GET (request : Request) : M pyvalue :=
  if String.eqb (path request) "/domains" then
    _get_whitelist storage_url >>
    let* domains := wl_get_all in
    ret (PList (collect domains))
  else
    setResponseCode http.NOT_FOUND >>
    ret (PStr (Py.line "NOT FOUND")).

Definition render_DELETE (request : Request) : M pyvalue :=
  if Py.startswith (path request) "/domains/" then
    let domain := Py.remove "/domains/" (path request) in
    _get_whitelist storage_url >>
    let* present := wl_contains domain in
    if present then
      wl_delete domain >>
      ret (PStr (Py.line "DELETED"))
    else
      setResponseCode http.NOT_FOUND >>
      ret (PStr (Py.line "NOT FOUND"))
  else
    setResponseCode http.NOT_FOUND >>
    ret (PStr (Py.line "NOT FOUND")).

Definition render_PUT (request : Request) : M pyvalue :=
  setResponseCode http.NOT_IMPLEMENTED >>
  ret (PStr (Py.line "NOT IMPLEMENTED")).

(** ** The response encoder *)

Definition _get_response_str (data : pyvalue) : string :=
  match data with
  | PStr s => s
  | PList l => Py.join (String Py.LF "") l +:+ String Py.LF ""
  end.

Definition _get_response (request : Request) (data : pyvalue) : result string :=
  let content_type := getHeader request "Content-Type" in
  if decide (content_type = Some "application/json")
  then json.dumps data
  else Ok (_get_response_str data).

(** ** The resource tree *)

Inductive resource :=
| RootWebResource
| WelcomeHandler
| AdminWebHandler
| DNSFilterWebservice
| NoResource.

(** The children registered with [putChild]. *)
Definition children (r : resource) : gmap string resource :=
  match r with
  | RootWebResource => <["admin" := AdminWebHandler]> (<["domains" := DNSFilterWebservice]> ∅)
  | _ => ∅
  end.

(** [getChild]: overridden by the root and by the web service, that of
    [twisted.web.resource.Resource] (a [NoResource]) for the two pages, and
    that of [ErrorPage] (itself) for [NoResource]. *)
Definition getChild (r : resource) (name : string) : resource :=
  match r with
  | RootWebResource => WelcomeHandler
  | DNSFilterWebservice => DNSFilterWebservice
  | WelcomeHandler | AdminWebHandler => NoResource
  | NoResource => NoResource
  end.

Definition getChildWithDefault (r : resource) (name : string) : resource :=
  match children r !! name with
  | Some child => child
  | None => getChild r name
  end.

(** [twisted.web.resource.getChildForRequest]; no resource here is a leaf. *)
Definition getChildForRequest (r : resource) (segments : list string) : resource :=
  foldl getChildWithDefault r segments.

(** [getattr(self, 'render_' + request.method, None)]; [render_HEAD] is that
    of [twisted.web.resource.Resource], which calls [self.render_GET]. *)
Definition render_method (r : resource) (m : string) : option (Request → M pyvalue) :=
  match r with
  | DNSFilterWebservice =>
      if String.eqb m "GET" then Some render_GET
      else if String.eqb m "HEAD" then Some render_GET
      else if String.eqb m "POST" then Some render_POST
      else if String.eqb m "DELETE" then Some render_DELETE
      else if String.eqb m "PUT" then Some render_PUT
      else None
  | WelcomeHandler =>
      if String.eqb m "GET" || String.eqb m "HEAD"
      then Some (λ _, ret (PStr (Py.line "WELCOME")))
      else None
  | AdminWebHandler =>
      if String.eqb m "GET" || String.eqb m "HEAD"
      then Some (λ _, ret (PStr (Py.line "ADMIN UI NOT IMPLEMENTED")))
      else None
  | RootWebResource =>
      if String.eqb m "HEAD" then Some (λ _, raise AttributeError) else None
  | NoResource => None
  end.

(** [WebResource.render]; [NoResource] has the [render] of [ErrorPage]. *)
Definition render (r : resource) (request : Request) : M string :=
  match r with
  | NoResource =>
      setResponseCode http.NOT_FOUND >>
      setHeader "content-type" "text/html; charset=utf-8" >>
      ret no_resource_page
  | _ =>
      match render_method r (method request) with
      | None => raise UnsupportedMethod
      | Some m =>
          let* response := m request in
          lift (_get_response request response)
      end
  end.

(** A request from its arrival to the body handed back to the server: the
    response code starts as 200, no header is set, nothing is logged. *)
Definition handle (request : Request) (w : W) : result string * env :=
  render (getChildForRequest RootWebResource (postpath request)) request
    (Env w [] http.OK ∅).

End Web.

Arguments Env {W} _ _ _ _.
Arguments store {W} _.
Arguments calls {W} _.
Arguments code {W} _.
Arguments responseHeaders {W} _.

(** The request asks for JSON: its [Content-Type] is exactly
    [application/json]. *)
Definition json_requested (request : Request) : bool :=
  bool_decide (getHeader request "Content-Type" = Some "application/json").

(** The body under which a [str] returned by a render method leaves: as it is,
    or as a JSON string literal when the request asks for JSON. *)
Definition body_of (request : Request) (plain in_json : string) : string :=
  if json_requested request then json.quoted in_json else plain.

(** [s] with the two characters backslash, n appended: the JSON escape of a
    final newline. *)
Definition escaped_line (s : string) : string := s +:+ String json.BS "n".

(** The strings a value is made of. *)
Definition strings_of (data : pyvalue) : list string :=
  match data with
  | PStr s => [s]
  | PList l => l
  end.

(** The byte [c] lies between [lo] and [hi]. *)
Definition byte_in (lo hi : N) (c : ascii) : Prop := (lo <= N_of_ascii c <= hi)%N.

(** The byte strings that are a sequence of encoded code points, by the table
    of byte sequences of UTF-8 (one row per constructor): one byte up to 0x7f;
    a lead byte 0xc2..0xdf, 0xe0..0xef or 0xf0..0xf4 followed by one, two or
    three bytes 0x80..0xbf, the first of them at least 0xa0 after 0xe0, at
    least 0x90 after 0xf0 and at most 0x8f after 0xf4.  This is well-formed
    UTF-8 and, besides, the three-byte forms 0xed 0xa0..0xbf 0x80..0xbf of the
    surrogates U+D800..U+DFFF, which well-formed UTF-8 excludes. *)
Inductive utf8_text : string → Prop :=
| utf8_end : utf8_text ""
| utf8_1 c s :
    byte_in 0 127 c →
    utf8_text s → utf8_text (String c s)
| utf8_2 c c1 s :
    byte_in 194 223 c → byte_in 128 191 c1 →
    utf8_text s → utf8_text (String c (String c1 s))
| utf8_3_E0 c c1 c2 s :
    byte_in 224 224 c → byte_in 160 191 c1 → byte_in 128 191 c2 →
    utf8_text s → utf8_text (String c (String c1 (String c2 s)))
| utf8_3 c c1 c2 s :
    byte_in 225 239 c → byte_in 128 191 c1 → byte_in 128 191 c2 →
    utf8_text s → utf8_text (String c (String c1 (String c2 s)))
| utf8_4_F0 c c1 c2 c3 s :
    byte_in 240 240 c → byte_in 144 191 c1 → byte_in 128 191 c2 →
    byte_in 128 191 c3 →
    utf8_text s → utf8_text (String c (String c1 (String c2 (String c3 s))))
| utf8_4 c c1 c2 c3 s :
    byte_in 241 243 c → byte_in 128 191 c1 → byte_in 128 191 c2 →
    byte_in 128 191 c3 →
    utf8_text s → utf8_text (String c (String c1 (String c2 (String c3 s))))
| utf8_4_F4 c c1 c2 c3 s :
    byte_in 244 244 c → byte_in 128 143 c1 → byte_in 128 191 c2 →
    byte_in 128 191 c3 →
    utf8_text s → utf8_text (String c (String c1 (String c2 (String c3 s)))).

(** No byte of [s] is above 0x7f. *)
Fixpoint is_ascii (s : string) : bool :=
  match s with
  | EmptyString => true
  | String c s' => (N_of_ascii c <? 128)%N && is_ascii s'
  end.

Definition all_ascii (data : pyvalue) : bool := forallb is_ascii (strings_of data).

(** ** The store contract and a reference store *)


(** Modelled from the spec: the [whitelists] module is not among the sources;
    a store after section 4.4 of the specification, the domains in the order
    they were added: [add] is idempotent, [delete] removes the domain,
    [get_all] is a snapshot of the listing. *)
Module ListStore.

Definition contains (w : list string) (d : string) : bool := bool_decide (d ∈ w).

Definition add (w : list string) (d : string) : list string :=
  if contains w d then w else w ++ [d].

Definition delete (w : list string) (d : string) : list string :=
  filter (λ d', d' ≠ d) w.

Definition get_all (w : list string) : list string := w.

#[global] Instance whitelist : Whitelist (list string) := {|
  whitelists.contains := contains;
  whitelists.add := add;
  whitelists.delete := delete;
  whitelists.get_all := get_all;
|}.

End ListStore.

(** Requests for the checks on concrete inputs: no argument unless given,
    [Content-Type] absent or as given. *)
Definition no_header : string → option string := λ _, None.

Definition content_type (v : string) : string → option string :=
  λ name, if String.eqb name "Content-Type" then Some v else None.

Definition request_of (m p : string) (a : gmap string (list string))
    (h : string → option string) : Request :=
  {| method := m; path := p; args := a; getHeader := h |}.

(** The storage URL by default, and a page for [NoResource]. *)
Definition default_url : string := "mongo:localhost:27017:dnsfilter".

Definition some_page : string := "404 - No Such Resource".

(** [handle] over the reference store, configured as above. *)
Definition serve (request : Request) (w : list string) : result string * env (W := list string) :=
  handle default_url some_page request w.

(** The byte 0xff. *)
Definition xFF : string := String "255" "".

(** A POST of [domain=d] to [/domains], and a request without arguments;
    each also with [Content-Type: application/json]. *)
Definition post (d : string) : Request :=
  request_of "POST" "/domains" {["domain" := [d]]} no_header.

Definition post_json (d : string) : Request :=
  request_of "POST" "/domains" {["domain" := [d]]} (content_type "application/json").

Definition bare (m p : string) : Request := request_of m p ∅ no_header.

Definition bare_json (m p : string) : Request :=
  request_of m p ∅ (content_type "application/json").

(** * Checks on concrete inputs *)

Example remove_ex1 : Py.remove "/domains/" "/domains/example.com" = "example.com".
Proof. reflexivity. Qed.

Example remove_ex2 : Py.remove "/domains/" "/domains/a/domains/b" = "ab".
Proof. reflexivity. Qed.

Example remove_ex3 : Py.remove "/domains/" "/domains/domains/x" = "domains/x".
Proof. reflexivity. Qed.

Example split_ex1 : Py.split "/" "unknown/path" = ["unknown"; "path"].
Proof. reflexivity. Qed.

Example split_ex2 : Py.split "/" "" = [""].
Proof. reflexivity. Qed.

Example unquote_ex1 : Py.unquote "%61dmin%2" = "admin%2".
Proof. reflexivity. Qed.

Example unquote_ex2 : Py.unquote "%%41%zz" = "%A%zz".
Proof. reflexivity. Qed.

Example dumps_ex1 :
  json.dumps (PList ["a"; "b"]) = Ok ("[" +:+ json.quoted "a" +:+ ", " +:+ json.quoted "b" +:+ "]").
Proof. reflexivity. Qed.

Example dumps_ex2 :
  json.dumps (PStr (Py.line "CREATED")) = Ok (json.quoted ("CREATED" +:+ String json.BS "n")).
Proof. reflexivity. Qed.

Example dumps_ex3 : json.dumps (PStr (String "255" "")) = Raise UnicodeDecodeError.
Proof. reflexivity. Qed.

Example dumps_ex4 :
  json.dumps (PStr (String "195" (String "169" ""))) = Ok (json.quoted (String json.BS "u00e9")).
Proof. reflexivity. Qed.

Example dumps_ex5 :
  json.dumps (PStr (String "240" (String "159" (String "152" (String "128" "")))))
  = Ok (json.quoted (String json.BS "ud83d" +:+ String json.BS "ude00")).
Proof. reflexivity. Qed.

Example dumps_ex6 : json.dumps (PList []) = Ok "[]".
Proof. reflexivity. Qed.

Example dumps_ex7 :
  json.dumps (PStr (String "237" (String "160" (String "128" ""))))
  = Ok (json.quoted (String json.BS "ud800")).
Proof. reflexivity. Qed.

Example utf8_text_ex1 : utf8_text (String "237" (String "160" (String "128" ""))).
Proof. apply utf8_3; [unfold byte_in; cbn; lia..|constructor]. Qed.

Example utf8_text_ex2 : ¬ utf8_text xFF.
Proof. inversion 1; unfold byte_in in *; cbn in *; lia. Qed.

(** * Python strings: prefixes and removal *)

Lemma startswith_app (p x : string) : Py.startswith (p +:+ x) p = true.
Proof.
  induction p as [|c p IH]; simpl; [done|].
  by rewrite Ascii.eqb_refl.
Qed.

Lemma startswith_inv (s p : string) :
  Py.startswith s p = true → ∃ x, s = p +:+ x.
Proof.
  revert s. induction p as [|c p IH]; intros s Hs.
  - by exists s.
  - destruct s as [|d s]; simpl in Hs; [done|].
    destruct (Ascii.eqb_spec c d) as [->|]; [|done].
    destruct (IH _ Hs) as [x ->]. by exists x.
Qed.

Lemma remove_from_skip (old p x : string) :
  Py.remove_from (String.length p) old (p +:+ x) = Py.remove_from O old x.
Proof. induction p as [|c p IH]; [reflexivity|exact IH]. Qed.

(** Removal drops a leading occurrence and goes on behind it. *)
Lemma remove_app (old x : string) :
  old ≠ "" → Py.remove old (old +:+ x) = Py.remove old x.
Proof.
  intros Hold. destruct old as [|c old]; [done|].
  unfold Py.remove. change (String c old +:+ x) with (String c (old +:+ x)).
  cbn [Py.remove_from].
  change (String c (old +:+ x)) with (String c old +:+ x).
  rewrite startswith_app. cbn [String.length Nat.pred].
  apply remove_from_skip.
Qed.

(** Nothing is removed from a string in which [old] does not occur. *)
Lemma remove_absent (old x : string) :
  Py.contains_str x old = false → Py.remove old x = x.
Proof.
  unfold Py.remove. induction x as [|c x IH]; intros Hx; [done|].
  cbn [Py.contains_str] in Hx. apply orb_false_iff in Hx as [Hs Hx].
  cbn [Py.remove_from]. rewrite Hs. f_equal. auto.
Qed.

Lemma remove_prefix_only (old x : string) :
  old ≠ "" → Py.contains_str x old = false → Py.remove old (old +:+ x) = x.
Proof. intros ? ?. rewrite remove_app by done. by apply remove_absent. Qed.

Lemma collect_id (domains : list string) : collect domains = domains.
Proof.
  unfold collect.
  enough (∀ acc, foldl (λ acc domain, acc ++ [domain]) acc domains = acc ++ domains)
    as Hgen by apply (Hgen []).
  induction domains as [|d l IH]; intros acc; simpl.
  - by rewrite app_nil_r.
  - rewrite IH, <- app_assoc. done.
Qed.

(** * Routing *)

(** The child of the root for a first segment: the two registered children,
    and the welcome page for anything else. *)
Lemma root_child (name : string) :
  getChildWithDefault RootWebResource name =
    if decide (name = "domains") then DNSFilterWebservice
    else if decide (name = "admin") then AdminWebHandler
    else WelcomeHandler.
Proof.
  unfold getChildWithDefault, children.
  destruct (decide (name = "domains")) as [->|Hd]; [done|].
  destruct (decide (name = "admin")) as [->|Ha]; [done|].
  rewrite lookup_insert_ne by done. rewrite lookup_insert_ne by done.
  by rewrite lookup_empty.
Qed.

Lemma under_domains (segments : list string) :
  getChildForRequest DNSFilterWebservice segments = DNSFilterWebservice.
Proof. induction segments as [|s l IH]; [done|]. exact IH. Qed.

Lemma under_NoResource (segments : list string) :
  getChildForRequest NoResource segments = NoResource.
Proof. induction segments as [|s l IH]; [done|]. exact IH. Qed.

(** Below a page there is nothing. *)
Lemma under_page (r : resource) (s : string) (segments : list string) :
  r = WelcomeHandler ∨ r = AdminWebHandler →
  getChildForRequest r (s :: segments) = NoResource.
Proof. intros [-> | ->]; apply under_NoResource. Qed.

Lemma postpath_nonempty (request : Request) : postpath request ≠ [].
Proof.
  unfold postpath, Py.split.
  generalize (Py.tail (path request)), "".
  intros s. induction s as [|c s IH]; intros cur; simpl; [done|].
  destruct (Ascii.eqb c "/"); [done|apply IH].
Qed.

Lemma resolve_domains (request : Request) :
  head (postpath request) = Some "domains" →
  getChildForRequest RootWebResource (postpath request) = DNSFilterWebservice.
Proof.
  destruct (postpath request) as [|s l]; [done|]. intros [= ->].
  apply under_domains.
Qed.

Lemma postpath_collection (request : Request) :
  path request = "/domains" → postpath request = ["domains"].
Proof. unfold postpath. by intros ->. Qed.

Lemma postpath_item (request : Request) (x : string) :
  path request = "/domains/" +:+ x → head (postpath request) = Some "domains".
Proof. unfold postpath. by intros ->. Qed.

(** * The handlers, request by request *)

Section Handlers.

Context {W : Type} `{Whitelist W}.
Variables storage_url no_resource_page : string.

Local Abbreviation run := (handle storage_url no_resource_page).
Local Abbreviation fresh w := (Env w [] http.OK ∅).

(** A [str] that JSON writes as [in_json] leaves as [body_of] says. *)
Lemma get_response_str (request : Request) (s in_json : string) :
  json.dumps (PStr s) = Ok (json.quoted in_json) →
  _get_response request (PStr s) = Ok (body_of request s in_json).
Proof.
  intros Hjson. unfold _get_response, body_of, json_requested.
  destruct (decide (getHeader request "Content-Type" = Some "application/json")) as [Hct|Hct].
  - by rewrite bool_decide_eq_true_2.
  - by rewrite bool_decide_eq_false_2.
Qed.

Lemma get_response_plain (request : Request) (data : pyvalue) :
  json_requested request = false →
  _get_response request data = Ok (_get_response_str data).
Proof.
  unfold json_requested, _get_response. intros Hct%bool_decide_eq_false.
  by destruct (decide _).
Qed.

Lemma get_response_json (request : Request) (data : pyvalue) :
  json_requested request = true →
  _get_response request data = json.dumps data.
Proof.
  unfold json_requested, _get_response. intros Hct%bool_decide_eq_true.
  by destruct (decide _).
Qed.

(** The web service answers every request below [/domains]. *)
Lemma run_domains (request : Request) (w : W) :
  head (postpath request) = Some "domains" →
  run request w = render storage_url no_resource_page DNSFilterWebservice request (fresh w).
Proof. intros Hp. unfold handle. by rewrite resolve_domains. Qed.

Lemma run_POST (request : Request) (w : W) (d : string) (vs : list string) :
  method request = "POST" →
  path request = "/domains" →
  args request !! "domain" = Some (d :: vs) →
  run request w =
    (Ok (body_of request (Py.line "CREATED") (escaped_line "CREATED")),
     Env (if contains w d then w else add w d)
         ([Load storage_url; Contains d] ++ (if contains w d then [] else [Add d]))
         http.OK
         (<["Location" := "/domains/" +:+ d]> ∅)).
Proof.
  intros Hm Hp Ha.
  rewrite run_domains by (by rewrite postpath_collection).
  unfold render, render_method. rewrite Hm. cbn.
  unfold render_POST, bind. rewrite Hp, Ha. cbn.
  destruct (contains w d); cbn;
    by rewrite (get_response_str _ _ (escaped_line "CREATED")).
Qed.

Lemma run_POST_no_domain (request : Request) (w : W) :
  method request = "POST" →
  path request = "/domains" →
  args request !! "domain" = None →
  run request w =
    (Ok (body_of request (Py.line "BAD REQUEST") (escaped_line "BAD REQUEST")),
     Env w [] http.BAD_REQUEST ∅).
Proof.
  intros Hm Hp Ha.
  rewrite run_domains by (by rewrite postpath_collection).
  unfold render, render_method. rewrite Hm. cbn.
  unfold render_POST, bind. rewrite Hp, Ha. cbn.
  by rewrite (get_response_str _ _ (escaped_line "BAD REQUEST")).
Qed.

Lemma run_GET (request : Request) (w : W) :
  method request = "GET" →
  path request = "/domains" →
  run request w =
    (_get_response request (PList (get_all w)),
     Env w [Load storage_url; GetAll] http.OK ∅).
Proof.
  intros Hm Hp.
  rewrite run_domains by (by rewrite postpath_collection).
  unfold render, render_method. rewrite Hm. cbn.
  unfold render_GET, bind. rewrite Hp. cbn.
  by rewrite collect_id.
Qed.

(** DELETE acts on what is left of the path once every ["/domains/"] is
    removed from it. *)
Lemma run_DELETE (request : Request) (w : W) :
  method request = "DELETE" →
  Py.startswith (path request) "/domains/" = true →
  let domain := Py.remove "/domains/" (path request) in
  run request w =
    if contains w domain
    then (Ok (body_of request (Py.line "DELETED") (escaped_line "DELETED")),
          Env (delete w domain)
              [Load storage_url; Contains domain; Delete domain] http.OK ∅)
    else (Ok (body_of request (Py.line "NOT FOUND") (escaped_line "NOT FOUND")),
          Env w [Load storage_url; Contains domain] http.NOT_FOUND ∅).
Proof.
  intros Hm Hp domain.
  destruct (startswith_inv _ _ Hp) as [x Hx].
  rewrite run_domains by (by apply (postpath_item _ x)).
  unfold render, render_method. rewrite Hm. cbn.
  unfold render_DELETE, bind. rewrite Hp. cbn.
  fold domain. destruct (contains w domain); cbn.
  - by rewrite (get_response_str _ _ (escaped_line "DELETED")).
  - by rewrite (get_response_str _ _ (escaped_line "NOT FOUND")).
Qed.

Lemma run_PUT (request : Request) (w : W) :
  method request = "PUT" →
  head (postpath request) = Some "domains" →
  run request w =
    (Ok (body_of request (Py.line "NOT IMPLEMENTED") (escaped_line "NOT IMPLEMENTED")),
     Env w [] http.NOT_IMPLEMENTED ∅).
Proof.
  intros Hm Hp. rewrite run_domains by done.
  unfold render, render_method. rewrite Hm. cbn.
  by rewrite (get_response_str _ _ (escaped_line "NOT IMPLEMENTED")).
Qed.

End Handlers.

(** * The reference store keeps the store contract *)



(** * [json.dumps] yields a text exactly on the byte sequences of UTF-8 *)

Ltac compare_bytes :=
  repeat match goal with
         | H : context [(?a <? ?b)%N] |- _ => destruct (N.ltb_spec a b); try lia
         | H : context [(?a <=? ?b)%N] |- _ => destruct (N.leb_spec a b); try lia
         | H : context [(?a =? ?b)%N] |- _ => destruct (N.eqb_spec a b); try lia
         | |- context [(?a <? ?b)%N] => destruct (N.ltb_spec a b); try lia
         | |- context [(?a <=? ?b)%N] => destruct (N.leb_spec a b); try lia
         | |- context [(?a =? ?b)%N] => destruct (N.eqb_spec a b); try lia
         end.

(** The decoder reads every string of the table. *)
Lemma utf8_text_decodes (s : string) :
  utf8_text s → is_Some (json.utf8_decode s).
Proof.
  unfold json.utf8_decode.
  induction 1 as [|c s Hc _ IH|c c1 s Hc H1 _ IH|c c1 c2 s Hc H1 H2 _ IH
                  |c c1 c2 s Hc H1 H2 _ IH|c c1 c2 c3 s Hc H1 H2 H3 _ IH
                  |c c1 c2 c3 s Hc H1 H2 H3 _ IH|c c1 c2 c3 s Hc H1 H2 H3 _ IH];
    [done|..]; unfold byte_in in *; cbn [json.utf8_decode_from]; unfold json.is_cont;
    destruct IH as [cps ->]; compare_bytes; by eexists.
Qed.

(** The decoder reads nothing else: by induction on a bound of the length,
    the decoder going on one, two, three or four bytes further. *)
Lemma decodes_utf8_text_upto (n : nat) (s : string) :
  (String.length s ≤ n)%nat → is_Some (json.utf8_decode s) → utf8_text s.
Proof.
  unfold json.utf8_decode. revert s.
  induction n as [|n IH]; intros s Hn Hs.
  { destruct s; [constructor|cbn in Hn; lia]. }
  destruct s as [|c s]; [constructor|].
  cbn [json.utf8_decode_from] in Hs. cbn [String.length] in Hn.
  destruct (N.ltb_spec (N_of_ascii c) 128).
  { apply fmap_is_Some in Hs. apply utf8_1; [unfold byte_in; lia|apply IH; [lia|done]]. }
  destruct (N.ltb_spec (N_of_ascii c) 194); [by destruct Hs|].
  destruct (N.ltb_spec (N_of_ascii c) 224).
  { destruct s as [|c1 s]; [by destruct Hs|]. unfold json.is_cont in Hs.
    cbn [json.utf8_decode_from String.length] in *.
    compare_bytes; cbn in Hs; try (by destruct Hs).
    apply fmap_is_Some in Hs. apply utf8_2; unfold byte_in; [lia..|apply IH; [lia|done]]. }
  destruct (N.ltb_spec (N_of_ascii c) 240).
  { destruct s as [|c1 [|c2 s]]; try (by destruct Hs). unfold json.is_cont in Hs.
    cbn [json.utf8_decode_from String.length] in *.
    compare_bytes; cbn in Hs; try (by destruct Hs); apply fmap_is_Some in Hs;
      first [apply utf8_3_E0; unfold byte_in; [lia..|apply IH; [lia|done]]
            |apply utf8_3; unfold byte_in; [lia..|apply IH; [lia|done]]]. }
  destruct (N.ltb_spec (N_of_ascii c) 245); [|by destruct Hs].
  destruct s as [|c1 [|c2 [|c3 s]]]; try (by destruct Hs). unfold json.is_cont in Hs.
  cbn [json.utf8_decode_from String.length] in *.
  compare_bytes; cbn in Hs; try (by destruct Hs); apply fmap_is_Some in Hs;
    first [apply utf8_4_F0; unfold byte_in; [lia..|apply IH; [lia|done]]
          |apply utf8_4_F4; unfold byte_in; [lia..|apply IH; [lia|done]]
          |apply utf8_4; unfold byte_in; [lia..|apply IH; [lia|done]]].
Qed.

Lemma decodes_iff_utf8_text (s : string) :
  is_Some (json.utf8_decode s) ↔ utf8_text s.
Proof.
  split; [by apply (decodes_utf8_text_upto (String.length s))|apply utf8_text_decodes].
Qed.

Lemma encode_basestring_spec (s : string) :
  match json.encode_basestring_ascii s with
  | Ok _ => utf8_text s
  | Raise e => e = UnicodeDecodeError ∧ ¬ utf8_text s
  end.
Proof.
  unfold json.encode_basestring_ascii.
  destruct (json.utf8_decode s) as [cps|] eqn:Hs.
  - apply decodes_iff_utf8_text. by rewrite Hs.
  - split; [done|]. intros [cps Hcps]%decodes_iff_utf8_text. congruence.
Qed.

Lemma encode_each_spec (l : list string) :
  match json.encode_each l with
  | Ok _ => Forall utf8_text l
  | Raise e => e = UnicodeDecodeError ∧ ¬ Forall utf8_text l
  end.
Proof.
  induction l as [|s l IH]; [by constructor|]. cbn [json.encode_each].
  pose proof (encode_basestring_spec s) as Hs.
  destruct (json.encode_basestring_ascii s) as [js|e].
  - destruct (json.encode_each l) as [rest|e].
    + by constructor.
    + destruct IH as [-> IH]. split; [done|]. by intros [_ ?]%Forall_cons.
  - destruct Hs as [-> Hs]. split; [done|]. by intros [? _]%Forall_cons.
Qed.

Lemma dumps_spec (data : pyvalue) :
  match json.dumps data with
  | Ok _ => Forall utf8_text (strings_of data)
  | Raise e => e = UnicodeDecodeError ∧ ¬ Forall utf8_text (strings_of data)
  end.
Proof.
  destruct data as [s|l]; cbn [json.dumps strings_of].
  - pose proof (encode_basestring_spec s) as Hs.
    destruct (json.encode_basestring_ascii s) as [js|e].
    + by repeat constructor.
    + destruct Hs as [-> Hs]. split; [done|]. by intros [? _]%Forall_cons.
  - pose proof (encode_each_spec l) as Hl.
    by destruct (json.encode_each l).
Qed.

(** A string without a byte above 0x7f is in the table, byte by byte. *)
Lemma ascii_utf8_text (s : string) : is_ascii s = true → utf8_text s.
Proof.
  induction s as [|c s IH]; [constructor|]. cbn [is_ascii].
  intros [Hc%N.ltb_lt Hs]%andb_true_iff.
  apply utf8_1; [unfold byte_in; lia|auto].
Qed.

Lemma all_ascii_utf8_text (data : pyvalue) :
  all_ascii data = true → Forall utf8_text (strings_of data).
Proof.
  unfold all_ascii. induction (strings_of data) as [|s l IH]; [done|].
  cbn [forallb]. intros [Hs Hl]%andb_true_iff.
  constructor; [by apply ascii_utf8_text|auto].
Qed.

(** * The claims *)

Section Claims.

Context {W : Type} `{Whitelist W}.
Variables storage_url no_resource_page : string.

Local Abbreviation run := (handle storage_url no_resource_page).


(** C2, as amended.  For a name [x] in which ["/domains/"] does not occur and
    that the store does not contain, DELETE [/domains/x] answers 404 with the
    body ["NOT FOUND\n"] (as a JSON string literal when the request asks for
    JSON); the store is the one it was, and it was only loaded and asked
    whether it contains [x]. *)
Theorem delete_absent_not_found (request : Request) (w : W) (x : string) :
  method request = "DELETE" →
  path request = "/domains/" +:+ x →
  Py.contains_str x "/domains/" = false →
  contains w x = false →
  run request w =
    (Ok (body_of request (Py.line "NOT FOUND") (escaped_line "NOT FOUND")),
     Env w [Load storage_url; Contains x] http.NOT_FOUND ∅).
Proof.
  intros Hm Hp Hx Hc.
  rewrite run_DELETE; [|done|rewrite Hp; apply (startswith_app "/domains/")].
  cbn zeta. rewrite Hp, remove_prefix_only by done. by rewrite Hc.
Qed.

(** C3, as amended.  POST [/domains] without a [domain] argument answers 400
    with the body ["BAD REQUEST\n"] (as a JSON string literal when the request
    asks for JSON); the store is the one it was and no call to it is made. *)
Theorem post_without_domain (request : Request) (w : W) :
  method request = "POST" →
  path request = "/domains" →
  args request !! "domain" = None →
  run request w =
    (Ok (body_of request (Py.line "BAD REQUEST") (escaped_line "BAD REQUEST")),
     Env w [] http.BAD_REQUEST ∅).
Proof. apply run_POST_no_domain. Qed.

(** C4, as amended.  POST [/domains] with a [domain] argument whose first
    value is [d] answers 200 (not 201), sets the header [Location] to
    ["/domains/"] followed by [d], and has the body ["CREATED\n"] (as a JSON
    string literal when the request asks for JSON), whether or not the store
    contained [d]. *)
Theorem post_created (request : Request) (w : W) (d : string) (vs : list string) :
  method request = "POST" →
  path request = "/domains" →
  args request !! "domain" = Some (d :: vs) →
  let out := run request w in
  out.1 = Ok (body_of request (Py.line "CREATED") (escaped_line "CREATED"))
  ∧ code out.2 = 200
  ∧ code out.2 ≠ 201
  ∧ responseHeaders out.2 !! "Location" = Some ("/domains/" +:+ d).
Proof.
  intros Hm Hp Ha. cbn zeta. rewrite (run_POST _ _ request w d vs) by done.
  cbn [fst snd code responseHeaders]. split_and!; [done..|].
  apply lookup_insert_eq.
Qed.

(** C5.  When [get_all()] yields ["a"] then ["b"], GET [/domains] answers with
    a body that, under [Content-Type: application/json], is a JSON document
    read back as the array of ["a"] and ["b"], and that otherwise (no such
    header, or any other value) is ["a\nb\n"]. *)
Theorem get_two_domains (request : Request) (w : W) :
  method request = "GET" →
  path request = "/domains" →
  get_all w = ["a"; "b"] →
  ∃ body, (run request w).1 = Ok body
    ∧ if json_requested request
      then json.loads body = Some (PList ["a"; "b"])
      else body = Py.line "a" +:+ Py.line "b".
Proof.
  intros Hm Hp Hw. rewrite run_GET by done. rewrite Hw. cbn [fst].
  destruct (json_requested request) eqn:Hct.
  - rewrite get_response_json by done. eexists. split; [reflexivity|]. reflexivity.
  - rewrite get_response_plain by done. eexists. split; reflexivity.
Qed.

(** C6, as amended.  GET [/unknown/path] answers 404 (with the page of the
    framework); GET [/] answers 200 with the body ["WELCOME\n"] and GET
    [/admin] answers 200 with the body ["ADMIN UI NOT IMPLEMENTED\n"] (each as
    a JSON string literal when the request asks for JSON); the store is not
    called.  A first path segment other than [domains] and [admin] resolves
    to the welcome page. *)
Theorem routing_fallback (a : gmap string (list string)) (h : string → option string)
    (w : W) (name : string) :
  let get p := request_of "GET" p a h in
  run (get "/unknown/path") w
    = (Ok no_resource_page,
       Env w [] http.NOT_FOUND (<["content-type" := "text/html; charset=utf-8"]> ∅))
  ∧ run (get "/") w
    = (Ok (body_of (get "/") (Py.line "WELCOME") (escaped_line "WELCOME")),
       Env w [] http.OK ∅)
  ∧ run (get "/admin") w
    = (Ok (body_of (get "/admin") (Py.line "ADMIN UI NOT IMPLEMENTED")
             (escaped_line "ADMIN UI NOT IMPLEMENTED")),
       Env w [] http.OK ∅)
  ∧ getChildWithDefault RootWebResource name
    = if decide (name = "domains") then DNSFilterWebservice
      else if decide (name = "admin") then AdminWebHandler
      else WelcomeHandler.
Proof.
  cbn zeta. split_and!.
  - reflexivity.
  - unfold handle.
    change (getChildForRequest _ _) with WelcomeHandler.
    cbn [render render_method method request_of String.eqb Ascii.eqb Bool.eqb orb bind ret lift].
    by rewrite (get_response_str _ _ (escaped_line "WELCOME")).
  - unfold handle.
    change (getChildForRequest _ _) with AdminWebHandler.
    cbn [render render_method method request_of String.eqb Ascii.eqb Bool.eqb orb bind ret lift].
    by rewrite (get_response_str _ _ (escaped_line "ADMIN UI NOT IMPLEMENTED")).
  - apply root_child.
Qed.

(** C7, as amended.  A PUT never calls the store and leaves it as it was.
    Below [/domains] (first path segment [domains]) it answers 501 with the
    body ["NOT IMPLEMENTED\n"] (as a JSON string literal when the request asks
    for JSON).  Elsewhere no PUT handler exists: on a path of one segment (the
    welcome and admin pages) the render raises [UnsupportedMethod], the
    response code still 200, and on a deeper path the page of the framework
    answers 404. *)
Theorem put_not_implemented (request : Request) (w : W) :
  method request = "PUT" →
  run request w =
    match postpath request with
    | s :: l =>
        if decide (s = "domains")
        then (Ok (body_of request (Py.line "NOT IMPLEMENTED")
                    (escaped_line "NOT IMPLEMENTED")),
              Env w [] http.NOT_IMPLEMENTED ∅)
        else match l with
             | [] => (Raise UnsupportedMethod, Env w [] http.OK ∅)
             | _ :: _ =>
                 (Ok no_resource_page,
                  Env w [] http.NOT_FOUND
                    (<["content-type" := "text/html; charset=utf-8"]> ∅))
             end
    | [] => (Raise UnsupportedMethod, Env w [] http.OK ∅)
    end.
Proof.
  intros Hm. pose proof (postpath_nonempty request) as Hne.
  destruct (postpath request) as [|s l] eqn:Hpp; [done|].
  destruct (decide (s = "domains")) as [->|Hs].
  { apply run_PUT; [done|by rewrite Hpp]. }
  unfold handle. rewrite Hpp.
  change (getChildForRequest RootWebResource (s :: l))
    with (getChildForRequest (getChildWithDefault RootWebResource s) l).
  rewrite root_child. destruct (decide (s = "domains")) as [|_]; [done|].
  destruct l as [|s' l'].
  - destruct (decide (s = "admin")); cbn; unfold render_method; by rewrite Hm.
  - destruct (decide (s = "admin")); by rewrite under_page by auto.
Qed.

(** C9, as amended.  The encoder is a function of the request's
    [Content-Type] and of the value.  It yields a body exactly when the
    request does not ask for JSON or every string of the value is a sequence
    of byte sequences of the table of UTF-8 ([utf8_text]: well-formed UTF-8
    and the three-byte forms of the surrogates); so it does for every value
    made of ASCII strings; and when it yields no body it raises
    [UnicodeDecodeError]. *)
Theorem encoder_total (request : Request) (data : pyvalue) :
  ((∃ body, _get_response request data = Ok body)
   ↔ (json_requested request = false ∨ Forall utf8_text (strings_of data)))
  ∧ (all_ascii data = true → ∃ body, _get_response request data = Ok body)
  ∧ (∀ x, _get_response request data = Raise x → x = UnicodeDecodeError).
Proof.
  destruct (json_requested request) eqn:Hct.
  - rewrite get_response_json by done. pose proof (dumps_spec data) as Hd.
    destruct (json.dumps data) as [body|e].
    + split_and!; [|by exists body|done]. split; [auto|]. by exists body.
    + destruct Hd as [-> Hd]. split_and!.
      * split; [by intros [? ?]|]. by intros [?|?].
      * intros Ha. by apply all_ascii_utf8_text in Ha.
      * by intros x [= <-].
  - rewrite get_response_plain by done. split_and!.
    + split; [auto|]. by eexists.
    + by eexists.
    + done.
Qed.

(** C10.  When the store is empty, GET [/domains] without the JSON
    [Content-Type] has the body ["\n"], a single newline, not the empty
    string. *)
Theorem get_empty_store (request : Request) (w : W) :
  method request = "GET" →
  path request = "/domains" →
  get_all w = [] →
  json_requested request = false →
  (run request w).1 = Ok (String Py.LF "")
  ∧ (run request w).1 ≠ Ok "".
Proof.
  intros Hm Hp Hw Hct. rewrite run_GET by done. rewrite Hw. cbn [fst].
  rewrite get_response_plain by done. by split.
Qed.

End Claims.

(** * The claims on concrete requests *)

Ltac evaluate :=
  vm_compute; repeat split; try reflexivity; try discriminate;
  try (intros ?; discriminate).



(** C2 as stated does not hold: the body is ["NOT FOUND\n"], and the JSON
    string literal of it under [Content-Type: application/json], not
    ["NOT FOUND"]; and for the absent name [a/domains/b] the DELETE of
    [/domains/a/domains/b] answers 200 and takes [ab] out of the store. *)
Lemma delete_absent_differs :
  (serve (bare "DELETE" "/domains/example.com") []).1 = Ok (Py.line "NOT FOUND")
  ∧ (serve (bare "DELETE" "/domains/example.com") []).1 ≠ Ok "NOT FOUND"
  ∧ (serve (bare_json "DELETE" "/domains/example.com") []).1
    = Ok (json.quoted (escaped_line "NOT FOUND"))
  ∧ contains ["ab"] "a/domains/b" = false
  ∧ serve (bare "DELETE" "/domains/a/domains/b") ["ab"]
    = (Ok (Py.line "DELETED"),
       Env [] [Load default_url; Contains "ab"; Delete "ab"] http.OK ∅).
Proof. evaluate. Qed.

Lemma delete_absent_not_found_witness :
  serve (bare "DELETE" "/domains/example.com") ["other.org"]
  = (Ok (Py.line "NOT FOUND"),
     Env ["other.org"] [Load default_url; Contains "example.com"] http.NOT_FOUND ∅).
Proof.
  exact (delete_absent_not_found default_url some_page
           (bare "DELETE" "/domains/example.com") ["other.org"] "example.com"
           eq_refl eq_refl eq_refl eq_refl).
Defined.

(** C3 as stated does not hold: the body is ["BAD REQUEST\n"], and the JSON
    string literal of it under [Content-Type: application/json], not
    ["BAD REQUEST"]. *)
Lemma post_without_domain_body_differs :
  (serve (bare "POST" "/domains") []).1 = Ok (Py.line "BAD REQUEST")
  ∧ (serve (bare "POST" "/domains") []).1 ≠ Ok "BAD REQUEST"
  ∧ (serve (bare_json "POST" "/domains") []).1
    = Ok (json.quoted (escaped_line "BAD REQUEST"))
  ∧ (serve (bare_json "POST" "/domains") []).1 ≠ Ok "BAD REQUEST".
Proof. evaluate. Qed.

Lemma post_without_domain_witness :
  serve (bare "POST" "/domains") ["other.org"]
  = (Ok (Py.line "BAD REQUEST"), Env ["other.org"] [] http.BAD_REQUEST ∅).
Proof.
  exact (post_without_domain default_url some_page
           (bare "POST" "/domains") ["other.org"] eq_refl eq_refl eq_refl).
Defined.

(** C4 as stated does not hold: the body is ["CREATED\n"], and the JSON string
    literal of it under [Content-Type: application/json], not ["CREATED"]. *)
Lemma post_created_body_differs :
  (serve (post "example.com") []).1 = Ok (Py.line "CREATED")
  ∧ (serve (post "example.com") []).1 ≠ Ok "CREATED"
  ∧ (serve (post_json "example.com") []).1 = Ok (json.quoted (escaped_line "CREATED"))
  ∧ (serve (post_json "example.com") []).1 ≠ Ok "CREATED".
Proof. evaluate. Qed.

Lemma post_created_witness :
  let out := serve (post "example.com") ["example.com"] in
  out.1 = Ok (Py.line "CREATED")
  ∧ code out.2 = 200
  ∧ code out.2 ≠ 201
  ∧ responseHeaders out.2 !! "Location" = Some "/domains/example.com".
Proof.
  exact (post_created default_url some_page (post "example.com") ["example.com"]
           "example.com" [] eq_refl eq_refl eq_refl).
Defined.

(** C5 at a store that lists ["a"] then ["b"], with and without the JSON
    [Content-Type]. *)
Lemma get_two_domains_witness :
  (∃ body, (serve (bare_json "GET" "/domains") ["a"; "b"]).1 = Ok body
           ∧ json.loads body = Some (PList ["a"; "b"]))
  ∧ (∃ body, (serve (bare "GET" "/domains") ["a"; "b"]).1 = Ok body
             ∧ body = Py.line "a" +:+ Py.line "b")
  ∧ (∃ body, (serve (request_of "GET" "/domains" ∅ (content_type "text/plain")) ["a"; "b"]).1
             = Ok body
             ∧ body = Py.line "a" +:+ Py.line "b").
Proof.
  split_and!.
  - exact (get_two_domains default_url some_page (bare_json "GET" "/domains") ["a"; "b"]
             eq_refl eq_refl eq_refl).
  - exact (get_two_domains default_url some_page (bare "GET" "/domains") ["a"; "b"]
             eq_refl eq_refl eq_refl).
  - exact (get_two_domains default_url some_page
             (request_of "GET" "/domains" ∅ (content_type "text/plain")) ["a"; "b"]
             eq_refl eq_refl eq_refl).
Defined.

(** C6 as stated does not hold: the bodies are ["WELCOME\n"] and
    ["ADMIN UI NOT IMPLEMENTED\n"], and the JSON string literals of them under
    [Content-Type: application/json], not ["WELCOME"] and
    ["ADMIN UI NOT IMPLEMENTED"]. *)
Lemma page_bodies_differ :
  (serve (bare "GET" "/") []).1 = Ok (Py.line "WELCOME")
  ∧ (serve (bare "GET" "/") []).1 ≠ Ok "WELCOME"
  ∧ (serve (bare "GET" "/admin") []).1 = Ok (Py.line "ADMIN UI NOT IMPLEMENTED")
  ∧ (serve (bare "GET" "/admin") []).1 ≠ Ok "ADMIN UI NOT IMPLEMENTED"
  ∧ (serve (bare_json "GET" "/") []).1 = Ok (json.quoted (escaped_line "WELCOME"))
  ∧ (serve (bare_json "GET" "/admin") []).1
    = Ok (json.quoted (escaped_line "ADMIN UI NOT IMPLEMENTED")).
Proof. evaluate. Qed.

(** C7 as stated does not hold: a PUT to [/] or to [/admin] finds no handler,
    the render raises [UnsupportedMethod] and no body ["NOT IMPLEMENTED"] is
    made; a PUT to [/unknown/path] answers 404; and below [/domains] the body
    is ["NOT IMPLEMENTED\n"], or the JSON string literal of it under
    [Content-Type: application/json]. *)
Lemma put_elsewhere_differs :
  serve (bare "PUT" "/") [] = (Raise UnsupportedMethod, Env [] [] http.OK ∅)
  ∧ serve (bare "PUT" "/admin") [] = (Raise UnsupportedMethod, Env [] [] http.OK ∅)
  ∧ (serve (bare "PUT" "/unknown/path") []).1 = Ok some_page
  ∧ code (serve (bare "PUT" "/unknown/path") []).2 = http.NOT_FOUND
  ∧ (serve (bare "PUT" "/domains") []).1 = Ok (Py.line "NOT IMPLEMENTED")
  ∧ (serve (bare "PUT" "/domains") []).1 ≠ Ok "NOT IMPLEMENTED"
  ∧ (serve (bare_json "PUT" "/domains") []).1
    = Ok (json.quoted (escaped_line "NOT IMPLEMENTED")).
Proof. evaluate. Qed.

Lemma put_not_implemented_witness :
  serve (bare "PUT" "/domains/example.com") ["example.com"]
  = (Ok (Py.line "NOT IMPLEMENTED"), Env ["example.com"] [] http.NOT_IMPLEMENTED ∅)
  ∧ serve (bare "PUT" "/") ["example.com"]
    = (Raise UnsupportedMethod, Env ["example.com"] [] http.OK ∅)
  ∧ serve (bare "PUT" "/admin") ["example.com"]
    = (Raise UnsupportedMethod, Env ["example.com"] [] http.OK ∅)
  ∧ serve (bare "PUT" "/unknown/path") ["example.com"]
    = (Ok some_page,
       Env ["example.com"] [] http.NOT_FOUND
         (<["content-type" := "text/html; charset=utf-8"]> ∅)).
Proof.
  split_and!.
  - exact (put_not_implemented default_url some_page
             (bare "PUT" "/domains/example.com") ["example.com"] eq_refl).
  - exact (put_not_implemented default_url some_page
             (bare "PUT" "/") ["example.com"] eq_refl).
  - exact (put_not_implemented default_url some_page
             (bare "PUT" "/admin") ["example.com"] eq_refl).
  - exact (put_not_implemented default_url some_page
             (bare "PUT" "/unknown/path") ["example.com"] eq_refl).
Defined.

(** C8 does not hold of the code: POST names the item of the domain
    [a/domains/b] as [/domains/a/domains/b]; the DELETE of that path asks the
    store for [ab], every ["/domains/"] being removed, deletes [ab] and leaves
    [a/domains/b] in the store. *)
Theorem delete_removes_every_occurrence :
  let created := serve (post "a/domains/b") ["ab"] in
  let deleted := serve (bare "DELETE" "/domains/a/domains/b") (store created.2) in
  responseHeaders created.2 !! "Location" = Some "/domains/a/domains/b"
  ∧ store created.2 = ["ab"; "a/domains/b"]
  ∧ deleted = (Ok (Py.line "DELETED"),
               Env ["a/domains/b"] [Load default_url; Contains "ab"; Delete "ab"]
                 http.OK ∅).
Proof. evaluate. Qed.

(** C9 as stated does not hold: under [Content-Type: application/json] the
    encoder raises [UnicodeDecodeError] on the one-byte string 0xff, alone or
    in a listing. *)
Lemma encoder_raises_on_xFF :
  _get_response (bare_json "GET" "/domains") (PStr xFF) = Raise UnicodeDecodeError
  ∧ _get_response (bare_json "GET" "/domains") (PList ["example.com"; xFF])
    = Raise UnicodeDecodeError
  ∧ (serve (bare_json "GET" "/domains") (store (serve (post xFF) []).2)).1
    = Raise UnicodeDecodeError.
Proof. evaluate. Qed.

Lemma get_empty_store_witness :
  (serve (bare "GET" "/domains") []).1 = Ok (String Py.LF "")
  ∧ (serve (bare "GET" "/domains") []).1 ≠ Ok "".
Proof.
  exact (get_empty_store default_url some_page (bare "GET" "/domains") []
           eq_refl eq_refl eq_refl eq_refl).
Defined.

(** * Beyond the claims: the whole request cycle *)

(** ** Where a path leads *)

Lemma resolve_cases (request : Request) :
  let r := getChildForRequest RootWebResource (postpath request) in
  (r = DNSFilterWebservice ∧ head (postpath request) = Some "domains")
  ∨ r = WelcomeHandler ∨ r = AdminWebHandler ∨ r = NoResource.
Proof.
  cbn zeta. pose proof (postpath_nonempty request) as Hne.
  destruct (postpath request) as [|s l]; [done|].
  change (getChildForRequest RootWebResource (s :: l))
    with (getChildForRequest (getChildWithDefault RootWebResource s) l).
  rewrite root_child.
  destruct (decide (s = "domains")) as [->|_].
  { left. by rewrite under_domains. }
  right.
  destruct l as [|s' l'].
  - destruct (decide (s = "admin")); cbn; auto.
  - right. right. destruct (decide (s = "admin")); by apply under_page; auto.
Qed.

(** A [str] without a byte above 0x7f always leaves as a body. *)
Lemma get_response_ascii (request : Request) (s : string) :
  is_ascii s = true → ∃ body, _get_response request (PStr s) = Ok body.
Proof.
  intros Hs. unfold _get_response. destruct (decide _) as [_|_]; [|by eexists].
  pose proof (dumps_spec (PStr s)) as Hd.
  destruct (json.dumps (PStr s)) as [body|x]; [by exists body|].
  destruct Hd as [_ Hd]. destruct Hd. cbn [strings_of].
  by repeat constructor; apply ascii_utf8_text.
Qed.

Section Cycle.

Context {W : Type} `{Whitelist W}.
Variables storage_url no_resource_page : string.

Local Abbreviation run := (handle storage_url no_resource_page).

(** The text of a handler becomes a body. *)
Ltac literal_body :=
  match goal with
  | |- context [_get_response ?r (PStr ?s)] =>
      let b := fresh "body" in
      let Hb := fresh "Hbody" in
      destruct (get_response_ascii r s eq_refl) as [b Hb]; rewrite Hb
  end.

(** Every way a request can end: what it returns, the response code, and what
    it did with the store. *)
Lemma run_cases (request : Request) (w : W) :
  let out := run request w in
  (store out.2 = w ∧ calls out.2 = []
   ∧ ((out.1 = Raise UnsupportedMethod ∧ code out.2 = 200)
      ∨ (out.1 = Raise IndexError ∧ code out.2 = 200 ∧ method request = "POST")
      ∨ (∃ body, out.1 = Ok body
                 ∧ (code out.2 = 200 ∨ code out.2 = 400 ∨ code out.2 = 404
                    ∨ code out.2 = 501))))
  ∨ (store out.2 = w ∧ calls out.2 = [Load storage_url; GetAll] ∧ code out.2 = 200
     ∧ (method request = "GET" ∨ method request = "HEAD")
     ∧ out.1 = _get_response request (PList (get_all w)))
  ∨ (∃ d body, method request = "POST" ∧ contains w d = true
       ∧ store out.2 = w ∧ calls out.2 = [Load storage_url; Contains d]
       ∧ code out.2 = 200 ∧ out.1 = Ok body)
  ∨ (∃ d body, method request = "POST" ∧ contains w d = false
       ∧ store out.2 = add w d
       ∧ calls out.2 = [Load storage_url; Contains d; Add d]
       ∧ code out.2 = 200 ∧ out.1 = Ok body)
  ∨ (∃ d body, method request = "DELETE" ∧ contains w d = true
       ∧ store out.2 = delete w d
       ∧ calls out.2 = [Load storage_url; Contains d; Delete d]
       ∧ code out.2 = 200 ∧ out.1 = Ok body)
  ∨ (∃ d body, method request = "DELETE" ∧ contains w d = false
       ∧ store out.2 = w ∧ calls out.2 = [Load storage_url; Contains d]
       ∧ code out.2 = 404 ∧ out.1 = Ok body).
Proof.
  cbn zeta. unfold handle.
  destruct (resolve_cases request) as [[Hr _]|[Hr|[Hr|Hr]]]; rewrite Hr; clear Hr.
  - (* the web service *)
    unfold render, render_method.
    destruct (String.eqb_spec (method request) "GET") as [Hm|_];
      [|destruct (String.eqb_spec (method request) "HEAD") as [Hm|_]];
      [| |destruct (String.eqb_spec (method request) "POST") as [Hm|_]];
      [| | |destruct (String.eqb_spec (method request) "DELETE") as [Hm|_]];
      [| | | |destruct (String.eqb_spec (method request) "PUT") as [Hm|_]].
    + unfold render_GET, bind. destruct (String.eqb (path request) "/domains"); cbn.
      * right. left. rewrite collect_id.
        by destruct (_get_response request (PList (get_all w))); auto 10.
      * literal_body. left. eauto 10.
    + unfold render_GET, bind. destruct (String.eqb (path request) "/domains"); cbn.
      * right. left. rewrite collect_id.
        by destruct (_get_response request (PList (get_all w))); auto 10.
      * literal_body. left. eauto 10.
    + unfold render_POST, bind. destruct (String.eqb (path request) "/domains"); cbn.
      * destruct (args request !! "domain") as [[|d vs]|]; cbn.
        -- left. auto 10.
        -- destruct (contains w d) eqn:Hc; cbn; literal_body.
           ++ do 2 right. left. exists d, body. auto 10.
           ++ do 3 right. left. exists d, body. auto 10.
        -- literal_body. left. eauto 10.
      * literal_body. left. eauto 10.
    + unfold render_DELETE, bind.
      destruct (Py.startswith (path request) "/domains/"); cbn.
      * set (d := Py.remove "/domains/" (path request)).
        destruct (contains w d) eqn:Hc; cbn; literal_body.
        -- do 4 right. left. exists d, body. auto 10.
        -- do 5 right. exists d, body. auto 10.
      * literal_body. left. eauto 10.
    + cbn. literal_body. left. eauto 10.
    + left. cbn. auto.
  - (* the welcome page *)
    unfold render, render_method.
    destruct (String.eqb (method request) "GET" || String.eqb (method request) "HEAD");
      cbn; [literal_body|]; left; eauto 10.
  - (* the admin page *)
    unfold render, render_method.
    destruct (String.eqb (method request) "GET" || String.eqb (method request) "HEAD");
      cbn; [literal_body|]; left; eauto 10.
  - (* nothing there *)
    left. cbn. eauto 10.
Qed.

(** Membership in a log given entry by entry. *)
Ltac in_log H :=
  repeat match type of H with
         | _ ∈ _ :: _ => apply elem_of_cons in H as [H|H]
         | _ ∈ [] => by apply elem_of_nil in H
         end.

(** X1.  Whatever the request, the store is called in one of five ways: not at
    all; loaded and listed; loaded and asked for one name; or that followed by
    the addition, or by the deletion, of that same name. *)
Theorem call_log_shapes (request : Request) (w : W) :
  let log := calls (run request w).2 in
  log = []
  ∨ log = [Load storage_url; GetAll]
  ∨ ∃ d, log = [Load storage_url; Contains d]
         ∨ log = [Load storage_url; Contains d; Add d]
         ∨ log = [Load storage_url; Contains d; Delete d].
Proof.
  cbn zeta.
  destruct (run_cases request w)
    as [(_ & -> & _)|[(_ & -> & _)|[(d & b & _ & _ & _ & -> & _)
       |[(d & b & _ & _ & _ & -> & _)|[(d & b & _ & _ & _ & -> & _)
       |(d & b & _ & _ & _ & -> & _)]]]]]; eauto 10.
Qed.

(** X2.  A name is deleted only by a DELETE, only when the store said it
    contains it, and the store is then the one [delete] returned. *)
Theorem delete_only_present (request : Request) (w : W) (d : string) :
  Delete d ∈ calls (run request w).2 →
  method request = "DELETE"
  ∧ contains w d = true
  ∧ store (run request w).2 = delete w d.
Proof.
  intros Hd.
  destruct (run_cases request w)
    as [(_ & Hc & _)|[(_ & Hc & _)|[(d' & b & _ & _ & _ & Hc & _)
       |[(d' & b & _ & _ & _ & Hc & _)|[(d' & b & Hm & Hp & Hs & Hc & _)
       |(d' & b & _ & _ & _ & Hc & _)]]]]];
    rewrite Hc in Hd; in_log Hd; try discriminate.
  by injection Hd as ->.
Qed.

(** X3.  A name is added only by a POST, only when the store said it does not
    contain it, and the store is then the one [add] returned. *)
Theorem add_only_absent (request : Request) (w : W) (d : string) :
  Add d ∈ calls (run request w).2 →
  method request = "POST"
  ∧ contains w d = false
  ∧ store (run request w).2 = add w d.
Proof.
  intros Hd.
  destruct (run_cases request w)
    as [(_ & Hc & _)|[(_ & Hc & _)|[(d' & b & _ & _ & _ & Hc & _)
       |[(d' & b & Hm & Hp & Hs & Hc & _)|[(d' & b & _ & _ & _ & Hc & _)
       |(d' & b & _ & _ & _ & Hc & _)]]]]];
    rewrite Hc in Hd; in_log Hd; try discriminate.
  by injection Hd as ->.
Qed.

(** X4.  A request whose method is neither POST nor DELETE leaves the store as
    it was: it loads and lists it at most. *)
Theorem reads_leave_store (request : Request) (w : W) :
  method request ≠ "POST" →
  method request ≠ "DELETE" →
  store (run request w).2 = w
  ∧ (calls (run request w).2 = []
     ∨ calls (run request w).2 = [Load storage_url; GetAll]).
Proof.
  intros Hpost Hdelete.
  destruct (run_cases request w)
    as [(Hs & Hc & _)|[(Hs & Hc & _)|[(d & b & Hm & _)
       |[(d & b & Hm & _)|[(d & b & Hm & _)|(d & b & Hm & _)]]]]]; auto; done.
Qed.

(** X5.  A request that ends in an exception has not changed the store, and
    its response code is still 200: the exception is [UnsupportedMethod],
    [IndexError] or [UnicodeDecodeError]. *)
Theorem exception_leaves_store (request : Request) (w : W) (x : exn) :
  (run request w).1 = Raise x →
  store (run request w).2 = w
  ∧ code (run request w).2 = 200
  ∧ (x = UnsupportedMethod ∨ x = IndexError ∨ x = UnicodeDecodeError).
Proof.
  intros Hx.
  destruct (run_cases request w)
    as [(Hs & _ & [[Hr Hcode]|[(Hr & Hcode & _)|(b & Hr & _)]])
       |[(Hs & _ & Hcode & _ & Hr)|[(d & b & _ & _ & _ & _ & _ & Hr)
       |[(d & b & _ & _ & _ & _ & _ & Hr)|[(d & b & _ & _ & _ & _ & _ & Hr)
       |(d & b & _ & _ & _ & _ & _ & Hr)]]]]]; rewrite Hr in Hx; try done.
  - injection Hx as <-. auto.
  - injection Hx as <-. auto.
  - split_and!; [done..|]. right. right.
    unfold _get_response in Hx. destruct (decide _); [|done].
    pose proof (dumps_spec (PList (get_all w))) as Hd. rewrite Hx in Hd. by destruct Hd.
Qed.

(** X6.  The response code of every request is 200, 400, 404 or 501. *)
Theorem response_codes (request : Request) (w : W) :
  let c := code (run request w).2 in
  c = 200 ∨ c = 400 ∨ c = 404 ∨ c = 501.
Proof.
  cbn zeta.
  destruct (run_cases request w)
    as [(_ & _ & [[_ ->]|[(_ & -> & _)|(b & _ & Hcode)]])
       |[(_ & _ & -> & _)|[(d & b & _ & _ & _ & _ & -> & _)
       |[(d & b & _ & _ & _ & _ & -> & _)|[(d & b & _ & _ & _ & _ & -> & _)
       |(d & b & _ & _ & _ & _ & -> & _)]]]]]; auto.
Qed.

End Cycle.

(** ** The handlers off their path, and POST and DELETE together *)

(** X7.  The path of the tree is all of it: the first segment chooses between
    the web service, which also answers everything below [/domains], and the
    two pages, below which there is only [NoResource]. *)
Theorem routing_table (s : string) (l : list string) :
  getChildForRequest RootWebResource (s :: l) =
    if decide (s = "domains") then DNSFilterWebservice
    else match l with
         | [] => if decide (s = "admin") then AdminWebHandler else WelcomeHandler
         | _ :: _ => NoResource
         end.
Proof.
  change (getChildForRequest RootWebResource (s :: l))
    with (getChildForRequest (getChildWithDefault RootWebResource s) l).
  rewrite root_child.
  destruct (decide (s = "domains")); [apply under_domains|].
  destruct l as [|s' l']; [done|].
  destruct (decide (s = "admin")); by apply under_page; auto.
Qed.

Section Paths.

Context {W : Type} `{Whitelist W}.
Variables storage_url no_resource_page : string.

Local Abbreviation run := (handle storage_url no_resource_page).

(** X8.  The web service compares the raw path: a GET, HEAD or POST that
    reaches it on another path than [/domains], and a DELETE on a path that
    does not start with [/domains/], answer 404 with ["NOT FOUND\n"] and do
    not call the store, whatever the arguments. *)
Theorem service_off_path (request : Request) (w : W) :
  head (postpath request) = Some "domains" →
  ((method request = "GET" ∨ method request = "HEAD" ∨ method request = "POST")
   ∧ path request ≠ "/domains")
  ∨ (method request = "DELETE" ∧ Py.startswith (path request) "/domains/" = false) →
  run request w =
    (Ok (body_of request (Py.line "NOT FOUND") (escaped_line "NOT FOUND")),
     Env w [] http.NOT_FOUND ∅).
Proof.
  intros Hhead Hoff. rewrite run_domains by done.
  unfold render, render_method.
  destruct Hoff as [[Hm Hp]|[Hm Hp]].
  - apply String.eqb_neq in Hp.
    destruct Hm as [Hm|[Hm|Hm]]; rewrite Hm; cbn;
      unfold render_GET, render_POST, bind; rewrite Hp; cbn;
      by rewrite (get_response_str _ _ (escaped_line "NOT FOUND")).
  - rewrite Hm. cbn. unfold render_DELETE, bind. rewrite Hp. cbn.
    by rewrite (get_response_str _ _ (escaped_line "NOT FOUND")).
Qed.

(** X9.  A POST to [/domains] whose [domain] key holds no value raises
    [IndexError]: the store is not called and the response code stays 200. *)
Theorem post_no_value (request : Request) (w : W) :
  method request = "POST" →
  path request = "/domains" →
  args request !! "domain" = Some [] →
  run request w = (Raise IndexError, Env w [] http.OK ∅).
Proof.
  intros Hm Hp Ha.
  rewrite run_domains by (by rewrite postpath_collection).
  unfold render, render_method. rewrite Hm. cbn.
  unfold render_POST, bind. by rewrite Hp, Ha.
Qed.

(** X10.  DELETE of [/domains/x] acts on [x] with every ["/domains/"] removed
    from it: when the store contains that name it is deleted, once, and the
    answer is 200 with ["DELETED\n"]; otherwise the answer is 404 and the
    store is left alone. *)
Theorem delete_acts_on_remainder (request : Request) (w : W) (x : string) :
  method request = "DELETE" →
  path request = "/domains/" +:+ x →
  let d := Py.remove "/domains/" x in
  run request w =
    if contains w d
    then (Ok (body_of request (Py.line "DELETED") (escaped_line "DELETED")),
          Env (delete w d) [Load storage_url; Contains d; Delete d] http.OK ∅)
    else (Ok (body_of request (Py.line "NOT FOUND") (escaped_line "NOT FOUND")),
          Env w [Load storage_url; Contains d] http.NOT_FOUND ∅).
Proof.
  intros Hm Hp d.
  rewrite run_DELETE; [|done|rewrite Hp; apply (startswith_app "/domains/")].
  cbn zeta. rewrite Hp, remove_app by done. done.
Qed.

(** X11.  DELETE undoes POST through the [Location] header: a DELETE of the
    path that the POST of a name [d] without ["/domains/"] in it put in the
    header asks the store for [d] and, the store containing it by then,
    deletes [d] and nothing else. *)
Theorem delete_at_location (created removed : Request) (w : W)
    (d : string) (vs : list string) :
  method created = "POST" →
  path created = "/domains" →
  args created !! "domain" = Some (d :: vs) →
  Py.contains_str d "/domains/" = false →
  method removed = "DELETE" →
  responseHeaders (run created w).2 !! "Location" = Some (path removed) →
  let w' := store (run created w).2 in
  contains w' d = true →
  run removed w' =
    (Ok (body_of removed (Py.line "DELETED") (escaped_line "DELETED")),
     Env (delete w' d) [Load storage_url; Contains d; Delete d] http.OK ∅).
Proof.
  intros Hm Hp Ha Hd Hm' Hloc w' Hc.
  rewrite (run_POST _ _ created w d vs) in Hloc by done.
  cbn [snd responseHeaders] in Hloc. rewrite lookup_insert_eq in Hloc.
  injection Hloc as Hloc.
  rewrite run_DELETE; [|done|rewrite <- Hloc; apply (startswith_app "/domains/")].
  cbn zeta. rewrite <- Hloc, remove_prefix_only by done. by rewrite Hc.
Qed.

End Paths.

(** ** Reading a plain listing back *)

Lemma append_assoc (a b c : string) : (a +:+ b) +:+ c = a +:+ (b +:+ c).
Proof.
  induction a as [|x a IH]; [done|].
  change (String x ((a +:+ b) +:+ c) = String x (a +:+ (b +:+ c))). by f_equal.
Qed.

Lemma append_nil_r (a : string) : a +:+ "" = a.
Proof.
  induction a as [|x a IH]; [done|].
  change (String x (a +:+ "") = String x a). by f_equal.
Qed.

(** [split] reads over a piece in which the separator does not occur. *)
Lemma split_from_piece (sep : ascii) (s cur rest : string) :
  Py.contains_str s (String sep "") = false →
  Py.split_from sep cur (s +:+ rest) = Py.split_from sep (cur +:+ s) rest.
Proof.
  revert cur. induction s as [|c s IH]; intros cur Hs.
  - by rewrite append_nil_r.
  - cbn in Hs. apply orb_false_iff in Hs as [Hc Hs].
    change (String c s +:+ rest) with (String c (s +:+ rest)).
    cbn [Py.split_from]. rewrite Ascii.eqb_sym.
    destruct (Ascii.eqb sep c); [done|].
    rewrite IH by done. by rewrite append_assoc.
Qed.

Lemma split_from_lines (d : string) (l : list string) (cur : string) :
  Forall (λ d, Py.contains_str d (String Py.LF "") = false) (d :: l) →
  Py.split_from Py.LF cur (Py.join (String Py.LF "") (d :: l) +:+ String Py.LF "")
  = (cur +:+ d) :: l ++ [""].
Proof.
  revert d cur. induction l as [|d' l IH]; intros d cur Hl.
  - apply Forall_cons in Hl as [Hd _]. cbn [Py.join String.concat].
    by rewrite split_from_piece.
  - apply Forall_cons in Hl as [Hd Hl].
    change (Py.join (String Py.LF "") (d :: d' :: l))
      with (d +:+ String Py.LF (Py.join (String Py.LF "") (d' :: l))).
    rewrite append_assoc, split_from_piece by done.
    change (String Py.LF ?a +:+ ?b) with (String Py.LF (a +:+ b)).
    cbn [Py.split_from]. rewrite Ascii.eqb_refl.
    by rewrite IH.
Qed.

Section Listing.

Context {W : Type} `{Whitelist W}.
Variables storage_url no_resource_page : string.

Local Abbreviation run := (handle storage_url no_resource_page).

(** X12.  The plain listing can be read back: when the store lists at least
    one domain and no domain holds a newline, splitting the body of a GET of
    [/domains] (not asking for JSON) at the newlines gives the domains in the
    store's order, followed by one empty piece; the store is only loaded and
    listed. *)
Theorem plain_listing_reads_back (request : Request) (w : W) :
  method request = "GET" →
  path request = "/domains" →
  json_requested request = false →
  get_all w ≠ [] →
  Forall (λ d, Py.contains_str d (String Py.LF "") = false) (get_all w) →
  ∃ body, run request w = (Ok body, Env w [Load storage_url; GetAll] http.OK ∅)
          ∧ Py.split Py.LF body = get_all w ++ [""].
Proof.
  intros Hm Hp Hct Hne Hl. rewrite run_GET by done.
  rewrite get_response_plain by done. eexists. split; [reflexivity|].
  destruct (get_all w) as [|d l]; [done|].
  unfold Py.split. cbn [_get_response_str]. by rewrite split_from_lines.
Qed.

End Listing.

(** ** Reading a JSON body back *)

Lemma concat_cons (x : string) (xs : list string) :
  String.concat "" (x :: xs) = x +:+ String.concat "" xs.
Proof. destruct xs; [by rewrite append_nil_r|done]. Qed.

Lemma utf8_decode_ascii (s : string) :
  is_ascii s = true →
  json.utf8_decode s = Some (N_of_ascii <$> list_ascii_of_string s).
Proof.
  unfold json.utf8_decode.
  induction s as [|c s IH]; [done|]. cbn [is_ascii json.utf8_decode_from].
  intros [Hc Hs]%andb_true_iff. rewrite Hc, (IH Hs). done.
Qed.

(** The reader undoes the escape of one ASCII character. *)
Lemma lex_escape (c : ascii) (acc rest : string) :
  (N_of_ascii c <? 128)%N = true →
  json.lex (json.Inside acc) (json.escape (N_of_ascii c) +:+ rest)
  = json.lex (json.Inside (json.snoc acc c)) rest.
Proof.
  intros Hc.
  destruct c as [[] [] [] [] [] [] [] []];
    try (vm_compute in Hc; discriminate Hc); clear Hc; reflexivity.
Qed.

Lemma lex_escaped (s acc rest : string) :
  is_ascii s = true →
  json.lex (json.Inside acc)
    (String.concat "" (json.escape <$> (N_of_ascii <$> list_ascii_of_string s))
     +:+ String json.DQ rest)
  = cons (json.TString (acc +:+ s)) <$> json.lex json.Outside rest.
Proof.
  revert acc. induction s as [|c s IH]; intros acc Hs.
  - rewrite append_nil_r. reflexivity.
  - cbn [is_ascii] in Hs. apply andb_true_iff in Hs as [Hc Hs].
    cbn [list_ascii_of_string fmap list_fmap].
    rewrite concat_cons, append_assoc, lex_escape by done.
    rewrite IH by done. unfold json.snoc. by rewrite append_assoc.
Qed.

(** A string literal written by [json] is read back as the string. *)
Lemma lex_literal (s rest : string) :
  is_ascii s = true →
  ∃ js, json.encode_basestring_ascii s = Ok js
        ∧ json.lex json.Outside (js +:+ rest)
          = cons (json.TString s) <$> json.lex json.Outside rest.
Proof.
  intros Hs. unfold json.encode_basestring_ascii.
  rewrite utf8_decode_ascii by done. eexists. split; [reflexivity|].
  change (String json.DQ ?a +:+ rest) with (String json.DQ (a +:+ rest)).
  cbn [json.lex]. change (Ascii.eqb json.DQ "[") with false.
  change (Ascii.eqb json.DQ "]") with false.
  change (Ascii.eqb json.DQ ",") with false. rewrite Ascii.eqb_refl. cbn match.
  rewrite append_assoc.
  change (String json.DQ "" +:+ rest) with (String json.DQ rest).
  by rewrite lex_escaped.
Qed.

(** The items of an array written by [json] are read back in order. *)
Lemma lex_items (s : string) (l : list string) :
  forallb is_ascii (s :: l) = true →
  ∃ items ts, json.encode_each (s :: l) = Ok items
    ∧ json.lex json.Outside (Py.join ", " items +:+ "]") = Some (json.TString s :: ts)
    ∧ json.parse_items (json.TString s :: ts) = Some (s :: l).
Proof.
  revert s. induction l as [|s' l IH]; intros s Hl;
    cbn [forallb] in Hl; apply andb_true_iff in Hl as [Hs Hl].
  - destruct (lex_literal s "]" Hs) as (js & Hjs & Hlex).
    exists [js], [json.TClose]. cbn [json.encode_each]. rewrite Hjs.
    split_and!; [done| |done]. cbn [Py.join String.concat]. by rewrite Hlex.
  - destruct (IH s' Hl) as (items & ts & Henc & Hlex & Hparse).
    destruct (lex_literal s (", " +:+ (Py.join ", " items +:+ "]")) Hs)
      as (js & Hjs & Hlex').
    exists (js :: items), (json.TComma :: json.TString s' :: ts).
    cbn [json.encode_each] in Henc |- *. rewrite Hjs, Henc.
    split_and!; [done| |].
    + assert (Py.join ", " (js :: items) = js +:+ (", " +:+ Py.join ", " items)) as ->.
      { destruct items as [|i items]; [|done].
        destruct (json.encode_basestring_ascii s'); [|done].
        by destruct (json.encode_each l). }
      rewrite !append_assoc, Hlex'.
      change (", " +:+ ?a) with (String "," (String " " a)).
      cbn [json.lex]. cbn. by rewrite Hlex.
    + change (json.parse_items (json.TString s :: json.TComma :: json.TString s' :: ts))
        with (cons s <$> json.parse_items (json.TString s' :: ts)).
      by rewrite Hparse.
Qed.

(** What [json] writes of a value made of ASCII strings is read back as that
    value. *)
Lemma loads_dumps (data : pyvalue) :
  all_ascii data = true →
  ∃ body, json.dumps data = Ok body ∧ json.loads body = Some data.
Proof.
  unfold all_ascii. destruct data as [s|[|s l]]; cbn [strings_of]; intros Hd.
  - cbn [forallb] in Hd. apply andb_true_iff in Hd as [Hs _].
    destruct (lex_literal s "" Hs) as (js & Hjs & Hlex).
    exists js. cbn [json.dumps]. split; [done|].
    unfold json.loads. rewrite append_nil_r in Hlex. by rewrite Hlex.
  - by exists "[]".
  - destruct (lex_items s l Hd) as (items & ts & Henc & Hlex & Hparse).
    eexists. cbn [json.dumps]. rewrite Henc. split; [reflexivity|].
    unfold json.loads.
    change ("[" +:+ ?a) with (String "[" a).
    cbn [json.lex]. cbn. rewrite Hlex. cbn.
    destruct ts as [|t ts]; [done|]. cbn in Hparse |- *. by rewrite Hparse.
Qed.

(** ** A JSON body is ASCII *)

Lemma is_ascii_app (a b : string) : is_ascii (a +:+ b) = is_ascii a && is_ascii b.
Proof.
  induction a as [|c a IH]; [done|].
  change (String c a +:+ b) with (String c (a +:+ b)).
  cbn [is_ascii]. by rewrite IH, andb_assoc.
Qed.

Lemma hex_digit_ascii (d : N) :
  (d < 16)%N → (N_of_ascii (json.hex_digit d) <? 128)%N = true.
Proof.
  intros Hd. unfold json.hex_digit.
  destruct (d <? 10)%N; rewrite N_ascii_embedding by lia; apply N.ltb_lt; lia.
Qed.

Lemma u_escape_ascii (n : N) : is_ascii (json.u_escape n) = true.
Proof.
  unfold json.u_escape. cbn [is_ascii].
  rewrite !hex_digit_ascii by (apply N.mod_upper_bound; lia). done.
Qed.

Lemma escape_ascii (n : N) : is_ascii (json.escape n) = true.
Proof.
  unfold json.escape.
  repeat match goal with
         | |- context [if (?a =? ?b)%N then _ else _] => destruct (a =? b)%N; [done|]
         end.
  destruct ((32 <=? n) && (n <=? 126))%N eqn:Hn.
  - apply andb_true_iff in Hn as [_ Hn%N.leb_le]. cbn [is_ascii].
    rewrite N_ascii_embedding by lia. rewrite andb_true_r. apply N.ltb_lt. lia.
  - destruct (n <? 65536)%N; [apply u_escape_ascii|].
    by rewrite is_ascii_app, !u_escape_ascii.
Qed.

Lemma concat_ascii (sep : string) (l : list string) :
  is_ascii sep = true → forallb is_ascii l = true →
  is_ascii (String.concat sep l) = true.
Proof.
  intros Hsep. induction l as [|x l IH]; [done|].
  cbn [forallb]. intros [Hx Hl]%andb_true_iff.
  destruct l as [|y l]; [done|].
  change (String.concat sep (x :: y :: l))
    with (x +:+ (sep +:+ String.concat sep (y :: l))).
  by rewrite !is_ascii_app, Hx, Hsep, IH.
Qed.

Lemma encode_basestring_is_ascii (s js : string) :
  json.encode_basestring_ascii s = Ok js → is_ascii js = true.
Proof.
  unfold json.encode_basestring_ascii.
  destruct (json.utf8_decode s) as [cps|]; [|done]. intros [= <-].
  change (is_ascii (String.concat "" (json.escape <$> cps) +:+ String json.DQ "") = true).
  rewrite is_ascii_app, concat_ascii; [done..|].
  induction cps as [|n cps IH]; [done|]. cbn [fmap list_fmap forallb].
  by rewrite escape_ascii.
Qed.

Lemma encode_each_is_ascii (l items : list string) :
  json.encode_each l = Ok items → forallb is_ascii items = true.
Proof.
  revert items. induction l as [|s l IH]; intros items; cbn [json.encode_each].
  - by intros [= <-].
  - destruct (json.encode_basestring_ascii s) as [js|] eqn:Hjs; [|done].
    destruct (json.encode_each l) as [rest|]; [|done]. intros [= <-].
    cbn [forallb]. by rewrite (encode_basestring_is_ascii s js), IH.
Qed.

Lemma dumps_is_ascii (data : pyvalue) (body : string) :
  json.dumps data = Ok body → is_ascii body = true.
Proof.
  destruct data as [s|l]; cbn [json.dumps].
  - apply encode_basestring_is_ascii.
  - destruct (json.encode_each l) as [items|] eqn:Hitems; [|done]. intros [= <-].
    change ("[" +:+ ?a) with (String "[" a). cbn [is_ascii].
    rewrite is_ascii_app. unfold Py.join.
    rewrite concat_ascii; [done..|]. by apply (encode_each_is_ascii l).
Qed.

Section Json.

Context {W : Type} `{Whitelist W}.
Variables storage_url no_resource_page : string.

Local Abbreviation run := (handle storage_url no_resource_page).

(** X13.  The JSON listing can be read back: when every domain of the store
    is ASCII, the body of a GET of [/domains] asking for JSON is a JSON
    document read back as the array of the domains in the store's order; the
    store is only loaded and listed. *)
Theorem json_listing_reads_back (request : Request) (w : W) :
  method request = "GET" →
  path request = "/domains" →
  json_requested request = true →
  forallb is_ascii (get_all w) = true →
  ∃ body, run request w = (Ok body, Env w [Load storage_url; GetAll] http.OK ∅)
          ∧ json.loads body = Some (PList (get_all w)).
Proof.
  intros Hm Hp Hct Hl. rewrite run_GET by done.
  rewrite get_response_json by done.
  destruct (loads_dumps (PList (get_all w)) Hl) as (body & -> & Hloads).
  by exists body.
Qed.

End Json.

(** X14.  Under [Content-Type: application/json] the body tells the value:
    two values made of ASCII strings that are encoded alike are the same
    value, a string never being taken for a listing. *)
Theorem json_body_tells_value (request : Request) (v1 v2 : pyvalue) :
  json_requested request = true →
  all_ascii v1 = true →
  all_ascii v2 = true →
  _get_response request v1 = _get_response request v2 →
  v1 = v2.
Proof.
  intros Hct H1 H2. rewrite !get_response_json by done.
  destruct (loads_dumps v1 H1) as (b1 & -> & Hl1).
  destruct (loads_dumps v2 H2) as (b2 & -> & Hl2).
  intros [= ->]. congruence.
Qed.

(** X15.  Under [Content-Type: application/json] a body holds no byte above
    0x7f, whatever the strings of the value are. *)
Theorem json_body_is_ascii (request : Request) (data : pyvalue) (body : string) :
  json_requested request = true →
  _get_response request data = Ok body →
  is_ascii body = true.
Proof.
  intros Hct. rewrite get_response_json by done. apply dumps_is_ascii.
Qed.

(** ** Methods without a handler *)

Section Methods.

Context {W : Type} `{Whitelist W}.
Variables storage_url no_resource_page : string.

Local Abbreviation run := (handle storage_url no_resource_page).

(** X16.  The web service has a handler for GET, HEAD, POST, DELETE and PUT,
    the two pages for GET and HEAD: any other method makes the render raise
    [UnsupportedMethod], the store is not called and the response code stays
    200. *)
Theorem unsupported_method (request : Request) (w : W) :
  let r := getChildForRequest RootWebResource (postpath request) in
  (r = DNSFilterWebservice
   ∧ method request ∉ ["GET"; "HEAD"; "POST"; "DELETE"; "PUT"])
  ∨ ((r = WelcomeHandler ∨ r = AdminWebHandler)
     ∧ method request ∉ ["GET"; "HEAD"]) →
  run request w = (Raise UnsupportedMethod, Env w [] http.OK ∅).
Proof.
  cbn zeta. unfold handle. intros [[-> Hm]|[Hr Hm]].
  - unfold render, render_method.
    repeat match goal with
           | |- context [String.eqb (method request) ?m] =>
               destruct (String.eqb_spec (method request) m) as [Heq|_];
               [exfalso; apply Hm; rewrite Heq; repeat constructor|]
           end.
    done.
  - assert (String.eqb (method request) "GET" || String.eqb (method request) "HEAD"
            = false) as Hno.
    { apply orb_false_iff. split; apply String.eqb_neq; intros Heq;
        apply Hm; rewrite Heq; repeat constructor. }
    destruct Hr as [-> | ->]; unfold render, render_method; by rewrite Hno.
Qed.

End Methods.

(** * The further properties on concrete requests *)

Lemma delete_only_present_witness :
  method (bare "DELETE" "/domains/example.com") = "DELETE"
  ∧ contains ["example.com"; "other.org"] "example.com" = true
  ∧ store (serve (bare "DELETE" "/domains/example.com") ["example.com"; "other.org"]).2
    = ["other.org"].
Proof.
  refine (delete_only_present default_url some_page
            (bare "DELETE" "/domains/example.com") ["example.com"; "other.org"]
            "example.com" _).
  vm_compute. do 2 apply list_elem_of_further. apply list_elem_of_here.
Defined.

Lemma add_only_absent_witness :
  method (post "example.com") = "POST"
  ∧ contains ["other.org"] "example.com" = false
  ∧ store (serve (post "example.com") ["other.org"]).2 = ["other.org"; "example.com"].
Proof.
  refine (add_only_absent default_url some_page (post "example.com") ["other.org"]
            "example.com" _).
  vm_compute. do 2 apply list_elem_of_further. apply list_elem_of_here.
Defined.

Lemma reads_leave_store_witness :
  store (serve (bare "HEAD" "/domains") ["example.com"]).2 = ["example.com"]
  ∧ (calls (serve (bare "HEAD" "/domains") ["example.com"]).2 = []
     ∨ calls (serve (bare "HEAD" "/domains") ["example.com"]).2
       = [Load default_url; GetAll]).
Proof.
  refine (reads_leave_store default_url some_page (bare "HEAD" "/domains")
            ["example.com"] _ _); discriminate.
Defined.

Lemma exception_leaves_store_witness :
  store (serve (bare_json "GET" "/domains") ["example.com"; xFF]).2 = ["example.com"; xFF]
  ∧ code (serve (bare_json "GET" "/domains") ["example.com"; xFF]).2 = 200
  ∧ (UnicodeDecodeError = UnsupportedMethod ∨ UnicodeDecodeError = IndexError
     ∨ UnicodeDecodeError = UnicodeDecodeError).
Proof.
  exact (exception_leaves_store default_url some_page (bare_json "GET" "/domains")
           ["example.com"; xFF] UnicodeDecodeError eq_refl).
Defined.

Lemma service_off_path_witness :
  serve (bare "GET" "/%64omains") ["example.com"]
  = (Ok (Py.line "NOT FOUND"), Env ["example.com"] [] http.NOT_FOUND ∅)
  ∧ serve (bare "DELETE" "/domains") ["example.com"]
    = (Ok (Py.line "NOT FOUND"), Env ["example.com"] [] http.NOT_FOUND ∅)
  ∧ serve (request_of "POST" "/domains/" {["domain" := ["example.com"]]}
               (content_type "application/json")) []
    = (Ok (json.quoted (escaped_line "NOT FOUND")), Env [] [] http.NOT_FOUND ∅).
Proof.
  split_and!.
  - refine (service_off_path default_url some_page (bare "GET" "/%64omains")
              ["example.com"] eq_refl _).
    left. split; [by left|discriminate].
  - refine (service_off_path default_url some_page (bare "DELETE" "/domains")
              ["example.com"] eq_refl _).
    right. by split.
  - refine (service_off_path default_url some_page
              (request_of "POST" "/domains/" {["domain" := ["example.com"]]}
               (content_type "application/json")) [] eq_refl _).
    left. split; [by right; right|discriminate].
Defined.

Lemma post_no_value_witness :
  serve (request_of "POST" "/domains" {["domain" := []]} no_header) ["example.com"]
  = (Raise IndexError, Env ["example.com"] [] http.OK ∅).
Proof.
  exact (post_no_value default_url some_page
           (request_of "POST" "/domains" {["domain" := []]} no_header) ["example.com"]
           eq_refl eq_refl eq_refl).
Defined.

Lemma delete_acts_on_remainder_witness :
  serve (bare "DELETE" "/domains/a/domains/b/domains/c") ["abc"; "a/domains/b/domains/c"]
  = (Ok (Py.line "DELETED"),
     Env ["a/domains/b/domains/c"] [Load default_url; Contains "abc"; Delete "abc"]
       http.OK ∅).
Proof.
  exact (delete_acts_on_remainder default_url some_page
           (bare "DELETE" "/domains/a/domains/b/domains/c")
           ["abc"; "a/domains/b/domains/c"] "a/domains/b/domains/c" eq_refl eq_refl).
Defined.

Lemma delete_at_location_witness :
  serve (bare "DELETE" "/domains/example.com")
    (store (serve (post "example.com") ["other.org"]).2)
  = (Ok (Py.line "DELETED"),
     Env ["other.org"] [Load default_url; Contains "example.com"; Delete "example.com"]
       http.OK ∅).
Proof.
  exact (delete_at_location default_url some_page (post "example.com")
           (bare "DELETE" "/domains/example.com") ["other.org"] "example.com" []
           eq_refl eq_refl eq_refl eq_refl eq_refl eq_refl eq_refl).
Defined.

Lemma plain_listing_reads_back_witness :
  ∃ body, serve (bare "GET" "/domains") ["example.com"; "other.org"]
          = (Ok body, Env ["example.com"; "other.org"] [Load default_url; GetAll] http.OK ∅)
          ∧ Py.split Py.LF body = ["example.com"; "other.org"; ""].
Proof.
  refine (plain_listing_reads_back default_url some_page (bare "GET" "/domains")
            ["example.com"; "other.org"] eq_refl eq_refl eq_refl _ _).
  - discriminate.
  - repeat constructor.
Defined.

Lemma json_listing_reads_back_witness :
  ∃ body, serve (bare_json "GET" "/domains") ["example.com"; "other.org"]
          = (Ok body, Env ["example.com"; "other.org"] [Load default_url; GetAll] http.OK ∅)
          ∧ json.loads body = Some (PList ["example.com"; "other.org"]).
Proof.
  exact (json_listing_reads_back default_url some_page (bare_json "GET" "/domains")
           ["example.com"; "other.org"] eq_refl eq_refl eq_refl eq_refl).
Defined.

Lemma json_body_tells_value_witness :
  _get_response (bare_json "GET" "/domains") (PList ["example.com"])
  = _get_response (bare_json "GET" "/domains") (PList ["example.com"])
  ∧ PList ["example.com"] = PList ["example.com"].
Proof.
  split; [reflexivity|].
  exact (json_body_tells_value (bare_json "GET" "/domains")
           (PList ["example.com"]) (PList ["example.com"])
           eq_refl eq_refl eq_refl eq_refl).
Defined.

Lemma json_body_is_ascii_witness :
  ∃ body, _get_response (bare_json "GET" "/domains")
            (PList [String "195" (String "169" "")]) = Ok body
          ∧ is_ascii body = true.
Proof.
  eexists. split; [reflexivity|].
  exact (json_body_is_ascii (bare_json "GET" "/domains")
           (PList [String "195" (String "169" "")]) _ eq_refl eq_refl).
Defined.

Lemma unsupported_method_witness :
  serve (bare "PATCH" "/domains/example.com") ["example.com"]
  = (Raise UnsupportedMethod, Env ["example.com"] [] http.OK ∅)
  ∧ serve (bare "POST" "/") ["example.com"]
    = (Raise UnsupportedMethod, Env ["example.com"] [] http.OK ∅).
Proof.
  split.
  - refine (unsupported_method default_url some_page
              (bare "PATCH" "/domains/example.com") ["example.com"] _).
    left. split; [reflexivity|].
    intros Hin. repeat (apply elem_of_cons in Hin as [Hin|Hin]; [discriminate|]).
    by apply elem_of_nil in Hin.
  - refine (unsupported_method default_url some_page (bare "POST" "/")
              ["example.com"] _).
    right. split; [by left|].
    intros Hin. repeat (apply elem_of_cons in Hin as [Hin|Hin]; [discriminate|]).
    by apply elem_of_nil in Hin.
Defined.
